(** * reverse-sql: object naming and result-set class synthesis

    A shallow embedding of
    - [src/mapper/reverse-sql-object-name-provider.ts]
      (the [ReverseSqlObjectNameProvider] interface and its default
      implementation), and
    - the [ResultSetClassBuilder] class,
    together with the properties their specification states.

    JavaScript strings are sequences of code units; they are embedded as
    [string], one [ascii] per code unit.  Values that may be [undefined]
    are options, and JavaScript truthiness is written out where the
    source relies on it. *)

From Stdlib Require Import Bool List Ascii String NArith Arith Lia DecimalString.
From Stdlib Require DecimalPos DecimalN.
Import ListNotations.

Local Open Scope string_scope.
Local Open Scope bool_scope.

(* ================================================================== *)
(** ** The JavaScript string primitives the sources use *)
(* ================================================================== *)

Module Js.

(** Truthiness of a string value: only the empty string is falsy. *)
Definition truthy (s : string) : bool :=
  match s with
  | EmptyString => false
  | String _ _ => true
  end.

(** Truthiness of a possibly [undefined] string ([x?: string]). *)
Definition truthy_opt (o : option string) : bool :=
  match o with
  | None => false
  | Some s => truthy s
  end.

(** The string held by an optional field, as read inside a branch that
    its truthiness guards ([cleanup] maps [undefined] and [''] alike to
    ['']). *)
Definition text (o : option string) : string :=
  match o with
  | None => ""
  | Some s => s
  end.

(** [s.startsWith(search)]. *)
Definition startsWith (s search : string) : bool := String.prefix search s.

(** [s.slice(start)] for a non-negative [start]. *)
Definition slice (s : string) (start : nat) : string :=
  String.substring start (String.length s - start) s.

(** The regular-expression class [\w] (no [u] or [i] flag):
    [A-Za-z0-9_], decided on the code unit. *)
Definition is_word_char (c : ascii) : bool :=
  let n := N_of_ascii c in
  (((65 <=? n) && (n <=? 90)) || ((97 <=? n) && (n <=? 122))
   || ((48 <=? n) && (n <=? 57)) || (n =? 95))%N.

(** [input.replace(re, replacement)] for a global ([g]) regular
    expression [re] that is a single character class, and a replacement
    without [$] patterns: the scan starts at index 0, every code unit
    the class accepts is a match and is replaced, every other code unit
    is copied, and the scan resumes right after it. *)
Fixpoint replace_class_global (accepts : ascii -> bool) (replacement : string)
         (input : string) : string :=
  match input with
  | EmptyString => EmptyString
  | String c rest =>
      if accepts c
      then replacement ++ replace_class_global accepts replacement rest
      else String c (replace_class_global accepts replacement rest)
  end.

(** [Number.MAX_SAFE_INTEGER], 2^53 - 1. *)
Definition MAX_SAFE_INTEGER : N := 9007199254740991.

(** [Number.isSafeInteger(n)] for a non-negative integer: up to this
    bound every integer is a number of its own, and the template literal
    prints its decimal digits.  Above it a number no longer stands for
    one integer, and from 1e21 on it is printed in exponent form
    (['1e+21']). *)
Definition isSafeInteger (n : N) : bool := (n <=? MAX_SAFE_INTEGER)%N.

(** [`${n}`] for a number holding a safe non-negative integer.  Beyond
    [MAX_SAFE_INTEGER] the digits below are not what JavaScript prints:
    every statement that depends on them carries [isSafeInteger]. *)
Definition number_to_string (n : N) : string :=
  NilZero.string_of_uint (N.to_uint n).

(** [arr.push(x)], on the array's contents. *)
Definition push {A : Type} (arr : list A) (x : A) : list A := arr ++ [x].

(** [arr.forEach(callback)], where the callback's effect on the state it
    closes over is made explicit. *)
Definition forEach {A St : Type} (arr : list A) (callback : St -> A -> St)
           (st : St) : St :=
  fold_left callback arr st.

End Js.

(* ================================================================== *)
(** ** Data model *)
(* ================================================================== *)

(** [DbTable], with the fields the name provider reads. *)
Record DbTable := mkDbTable {
  table_schema : option string;
  table_name : string
}.

(** A column of a table or of a stored-procedure result set. *)
Record SqlResultSetColumn := mkColumn {
  col_name : option string;
  col_ordinal : N;
  col_objectTypeName : string;
  col_isNullable : bool
}.

Record SqlResultSet := mkResultSet {
  columns : list SqlResultSetColumn
}.

Record SqlParameter := mkParameter {
  param_name : string
}.

(** [SqlStoredProcedure]; [resultSets] may be absent. *)
Record SqlStoredProcedure := mkStoredProcedure {
  sp_schema : option string;
  sp_name : string;
  resultSets : option (list SqlResultSet)
}.

(** [PropertyDefinition] of the C# model; [isNullable] is optional. *)
Record PropertyDefinition := mkProperty {
  prop_name : string;
  prop_typeName : string;
  prop_accessModifier : string;
  prop_isNullable : option bool
}.

(** [ClassDefinition] of the C# model. *)
Record ClassDefinition := mkClass {
  class_name : string;
  class_accessModifier : string;
  class_properties : list PropertyDefinition
}.

(** The interface of the source file. *)
Class ReverseSqlObjectNameProvider := {
  getTableClassName : DbTable -> string;
  getTableTypeClassName : DbTable -> string;
  getColumnPropertyName : SqlResultSetColumn -> string;
  getTableInsertMethodName : DbTable -> string;
  getTableDeleteMethodName : DbTable -> string;
  getTableUpdateMethodName : DbTable -> string;
  getTableSelectByPrimaryKeyMethodName : DbTable -> string;
  getTableSelectByExpressionMethodName : DbTable -> string;
  getStoredProcedureMethodName : SqlStoredProcedure -> string;
  getStoredProcedureResultSetClassName : SqlStoredProcedure -> string;
  getResultSetMapperClassName : string -> string;
  getParameterName : SqlParameter -> string
}.

(* ================================================================== *)
(** ** DefaultReverseSqlObjectNameProvider *)
(* ================================================================== *)

Module DefaultReverseSqlObjectNameProvider.

(** [cleanup]: [''] for a falsy input, otherwise the input with every
    match of [/[^\w]/g] replaced by the empty string. *)
Definition cleanup (input : string) : string :=
  if negb (Js.truthy input) then ""
  else
    let result :=
      Js.replace_class_global (fun c => negb (Js.is_word_char c)) "" input in
    result.

Section Provider.

(** The constructor's [includeSchema] field. *)
Variable includeSchema : bool.

(** Imported from the code-generation libraries, whose sources are
    not part of this repository:
    [NameUtility.capitalize], [NameUtility.upperToLowerCamelCase]
    and [isReservedKeyword]. *)
Variable capitalize : string -> string.
Variable upperToLowerCamelCase : string -> string.
Variable isReservedKeyword : string -> bool.

(** [this.includeSchema && x.schema && x.schema !== 'dbo'] *)
Definition qualifies (schema : option string) : bool :=
  includeSchema && Js.truthy_opt schema
  && negb (match schema with Some s => String.eqb s "dbo" | None => false end).

Definition getStoredProcedureResultSetClassName (sp : SqlStoredProcedure) : string :=
  let cleanedUpSpName := cleanup (sp_name sp) in
  if qualifies (sp_schema sp) then
    let cleanedUpSchemaName := cleanup (Js.text (sp_schema sp)) in
    cleanedUpSchemaName ++ "_" ++ cleanedUpSpName ++ "Result"
  else cleanedUpSpName ++ "Result".

Definition getTableClassName (table : DbTable) : string :=
  let cleanedUpTableName := cleanup (table_name table) in
  if qualifies (table_schema table) then
    let cleanedUpSchemaName := cleanup (Js.text (table_schema table)) in
    cleanedUpSchemaName ++ "_" ++ cleanedUpTableName
  else cleanedUpTableName.

(** The guard of this method has no comparison with ['dbo']. *)
Definition getTableTypeClassName (tableType : DbTable) : string :=
  let cleanedUpTableName := cleanup (table_name tableType) in
  if includeSchema && Js.truthy_opt (table_schema tableType) then
    let cleanedUpSchemaName := cleanup (Js.text (table_schema tableType)) in
    cleanedUpSchemaName ++ "_" ++ cleanedUpTableName
  else cleanedUpTableName.

Definition getResultSetMapperClassName (resultSetClassName : string) : string :=
  resultSetClassName ++ "Mapper".

Definition getColumnPropertyName (col : SqlResultSetColumn) : string :=
  if negb (Js.truthy_opt (col_name col))
  then "Column" ++ Js.number_to_string (col_ordinal col)
  else cleanup (Js.text (col_name col)).

(** The structural argument [{ schema?: string, name: string }]. *)
Definition getCleanObjectNameWithSchema (schema : option string) (name : string)
  : string :=
  let cleanedUpName := cleanup name in
  if qualifies schema then
    let cleanedUpSchema := capitalize (cleanup (Js.text schema)) in
    cleanedUpSchema ++ "_" ++ cleanedUpName
  else cleanedUpName.

Definition getStoredProcedureMethodName (sp : SqlStoredProcedure) : string :=
  getCleanObjectNameWithSchema (sp_schema sp) (sp_name sp).

Definition getTableInsertMethodName (table : DbTable) : string :=
  getCleanObjectNameWithSchema (table_schema table)
    ("Insert" ++ capitalize (table_name table)).

Definition getTableDeleteMethodName (table : DbTable) : string :=
  getCleanObjectNameWithSchema (table_schema table)
    ("Delete" ++ capitalize (table_name table)).

Definition getTableUpdateMethodName (table : DbTable) : string :=
  getCleanObjectNameWithSchema (table_schema table)
    ("Update" ++ capitalize (table_name table)).

Definition getTableSelectByPrimaryKeyMethodName (table : DbTable) : string :=
  getCleanObjectNameWithSchema (table_schema table)
    ("Select" ++ capitalize (table_name table)).

Definition getTableSelectByExpressionMethodName (table : DbTable) : string :=
  getCleanObjectNameWithSchema (table_schema table)
    ("Select" ++ capitalize (table_name table) ++ "Where").

Definition getParameterName (parameter : SqlParameter) : string :=
  let name :=
    if Js.startsWith (param_name parameter) "@"
    then Js.slice (param_name parameter) 1
    else param_name parameter in
  let name := cleanup name in
  let name := upperToLowerCamelCase name in
  if isReservedKeyword name then "@" ++ name else name.

End Provider.

(** The class as an implementation of the interface. *)
Definition provider (includeSchema : bool)
           (capitalize upperToLowerCamelCase : string -> string)
           (isReservedKeyword : string -> bool) : ReverseSqlObjectNameProvider :=
  Build_ReverseSqlObjectNameProvider
    (getTableClassName includeSchema)
    (getTableTypeClassName includeSchema)
    getColumnPropertyName
    (getTableInsertMethodName includeSchema capitalize)
    (getTableDeleteMethodName includeSchema capitalize)
    (getTableUpdateMethodName includeSchema capitalize)
    (getTableSelectByPrimaryKeyMethodName includeSchema capitalize)
    (getTableSelectByExpressionMethodName includeSchema capitalize)
    (getStoredProcedureMethodName includeSchema capitalize)
    (getStoredProcedureResultSetClassName includeSchema)
    getResultSetMapperClassName
    (getParameterName upperToLowerCamelCase isReservedKeyword).

End DefaultReverseSqlObjectNameProvider.

(* ================================================================== *)
(** ** ResultSetClassBuilder *)
(* ================================================================== *)

Module ResultSetClassBuilder.

Section Builder.

(** The two members the builder calls on [this.objectNameProvider], for
    a provider object on which both are functions (the member lookup, and
    what happens on an object that lacks one, is in [BuilderObject]
    below), and [SqlToCSharpTypeMapper.canBeNullable], whose module is
    not among the sources. *)
Variable getResultSetClassName : SqlStoredProcedure -> string.
Variable getResultSetColumnPropertyName : SqlResultSetColumn -> string.
Variable canBeNullable : string -> bool.

(** The callback of the inner [forEach]: its state is
    [classDefinition.properties]. *)
Definition addProperty (properties : list PropertyDefinition)
           (col : SqlResultSetColumn) : list PropertyDefinition :=
  let propertyName := getResultSetColumnPropertyName col in
  let property :=
    {| prop_name := propertyName;
       prop_typeName := col_objectTypeName col;
       prop_accessModifier := "public";
       prop_isNullable := None |} in
  let property :=
    {| prop_name := prop_name property;
       prop_typeName := prop_typeName property;
       prop_accessModifier := prop_accessModifier property;
       prop_isNullable :=
         Some (col_isNullable col && canBeNullable (col_objectTypeName col)) |} in
  Js.push properties property.

(** The callback of the outer [forEach]: its state is
    [classDefinitions]. *)
Definition addClass (classDefinitions : list ClassDefinition)
           (sp : SqlStoredProcedure) : list ClassDefinition :=
  match resultSets sp with
  | None => classDefinitions
  | Some [] => classDefinitions
  | Some (first :: _) =>
      let classDefinition :=
        {| class_name := getResultSetClassName sp;
           class_accessModifier := "public";
           class_properties := [] |} in
      let classDefinition :=
        {| class_name := class_name classDefinition;
           class_accessModifier := class_accessModifier classDefinition;
           class_properties :=
             Js.forEach (columns first) addProperty
                        (class_properties classDefinition) |} in
      Js.push classDefinitions classDefinition
  end.

Definition buildStoredProcResultSetClasses
           (storedProcedures : list SqlStoredProcedure) : list ClassDefinition :=
  let classDefinitions := [] in
  Js.forEach storedProcedures addClass classDefinitions.

End Builder.

(** [ReverseSqlOptions], with the two options the constructor reads. *)
Record ReverseSqlOptions := mkOptions {
  opt_objectNameProvider : option ReverseSqlObjectNameProvider;
  opt_includeSchema : option bool
}.

Section Constructor.

(** The library functions the default provider is built on. *)
Variable capitalize : string -> string.
Variable upperToLowerCamelCase : string -> string.
Variable isReservedKeyword : string -> bool.

(** The constructor: the value it stores in [this.objectNameProvider].
    [options || {}], then
    [opts.objectNameProvider || new DefaultReverseSqlObjectNameProvider(opts.includeSchema || false)]. *)
Definition constructor (options : option ReverseSqlOptions)
  : ReverseSqlObjectNameProvider :=
  let opts :=
    match options with
    | Some o => o
    | None => {| opt_objectNameProvider := None; opt_includeSchema := None |}
    end in
  match opt_objectNameProvider opts with
  | Some objectNameProvider => objectNameProvider
  | None =>
      DefaultReverseSqlObjectNameProvider.provider
        (match opt_includeSchema opts with Some b => b || false | None => false end)
        capitalize upperToLowerCamelCase isReservedKeyword
  end.

End Constructor.

End ResultSetClassBuilder.

(* ================================================================== *)
(** ** Specification-side vocabulary and sample inputs *)
(* ================================================================== *)

Module Spec.

(** The characters of [s] that satisfy [keeps], in their order. *)
Fixpoint retain (keeps : ascii -> bool) (s : string) : string :=
  match s with
  | EmptyString => EmptyString
  | String c rest =>
      if keeps c then String c (retain keeps rest) else retain keeps rest
  end.

(** How often the code unit [c] occurs in [s]. *)
Fixpoint occurrences (c : ascii) (s : string) : nat :=
  match s with
  | EmptyString => 0
  | String d rest => (if Ascii.eqb c d then 1 else 0) + occurrences c rest
  end.

(** [Subsequence a b]: [a] is [b] with some characters left out, the
    others in their relative order. *)
Inductive Subsequence : string -> string -> Prop :=
| Subsequence_done : Subsequence EmptyString EmptyString
| Subsequence_keep c a b : Subsequence a b -> Subsequence (String c a) (String c b)
| Subsequence_drop c a b : Subsequence a b -> Subsequence a (String c b).

(** Every character of the string is a word character. *)
Fixpoint all_word_chars (s : string) : bool :=
  match s with
  | EmptyString => true
  | String c rest => Js.is_word_char c && all_word_chars rest
  end.

(** Strip a single leading ['@'] marker, if present. *)
Definition strip_marker (s : string) : string :=
  match s with
  | String "@"%char rest => rest
  | _ => s
  end.

(** A stored procedure has a result-set list that is present and not
    empty. *)
Definition hasResultSets (sp : SqlStoredProcedure) : bool :=
  match resultSets sp with
  | Some (_ :: _) => true
  | _ => false
  end.

(** The columns of the first result set (none when there is no result
    set). *)
Definition firstColumns (sp : SqlStoredProcedure) : list SqlResultSetColumn :=
  match resultSets sp with
  | Some (first :: _) => columns first
  | _ => []
  end.

(** The same procedure with every result set after the first one
    removed. *)
Definition onlyFirstResultSet (sp : SqlStoredProcedure) : SqlStoredProcedure :=
  {| sp_schema := sp_schema sp;
     sp_name := sp_name sp;
     resultSets :=
       match resultSets sp with
       | Some (first :: _) => Some [first]
       | other => other
       end |}.

Section Synthesis.

Variable getResultSetClassName : SqlStoredProcedure -> string.
Variable getResultSetColumnPropertyName : SqlResultSetColumn -> string.
Variable canBeNullable : string -> bool.

(** The property the specification describes for a column. *)
Definition propertyOf (col : SqlResultSetColumn) : PropertyDefinition :=
  {| prop_name := getResultSetColumnPropertyName col;
     prop_typeName := col_objectTypeName col;
     prop_accessModifier := "public";
     prop_isNullable :=
       Some (col_isNullable col && canBeNullable (col_objectTypeName col)) |}.

(** The class the specification describes for a stored procedure. *)
Definition classOf (sp : SqlStoredProcedure) : ClassDefinition :=
  {| class_name := getResultSetClassName sp;
     class_accessModifier := "public";
     class_properties := map propertyOf (firstColumns sp) |}.

End Synthesis.

(** *** Library functions, for the concrete examples *)

Definition to_upper (c : ascii) : ascii :=
  let n := N_of_ascii c in
  if ((97 <=? n) && (n <=? 122))%N then ascii_of_N (n - 32) else c.

Definition to_lower (c : ascii) : ascii :=
  let n := N_of_ascii c in
  if ((65 <=? n) && (n <=? 90))%N then ascii_of_N (n + 32) else c.

(** Modelled from the spec: [NameUtility.capitalize] belongs to an
    imported library; the specification's "capitalized" name is the name
    with its first character in upper case (["sales"] becomes
    ["Sales"]). *)
Definition capitalize (s : string) : string :=
  match s with
  | EmptyString => EmptyString
  | String c rest => String (to_upper c) rest
  end.

(** Modelled from the spec: [NameUtility.upperToLowerCamelCase] belongs
    to an imported library; the specification's "lower-camel parameter
    casing" is taken as the name with its first character in lower case,
    which is all the examples below rely on. *)
Definition upperToLowerCamelCase (s : string) : string :=
  match s with
  | EmptyString => EmptyString
  | String c rest => String (to_lower c) rest
  end.

(** Modelled from the spec: [isReservedKeyword] belongs to an imported
    library; "the target language's reserved-keyword set" is given here
    by a few C# keywords, enough for the examples. *)
Definition isReservedKeyword (s : string) : bool :=
  existsb (String.eqb s)
          ["class"; "int"; "string"; "object"; "params"; "namespace";
           "event"; "in"; "out"; "ref"; "new"; "default"; "base"; "this"].

(** *** Sample inputs *)

Definition sales_Orders : DbTable :=
  {| table_schema := Some "sales"; table_name := "Orders" |}.

Definition dbo_Customer : DbTable :=
  {| table_schema := Some "dbo"; table_name := "Customer" |}.

Definition dbo_MyType : DbTable :=
  {| table_schema := Some "dbo"; table_name := "MyType" |}.

Definition col_Id : SqlResultSetColumn :=
  {| col_name := Some "Id"; col_ordinal := 1;
     col_objectTypeName := "int"; col_isNullable := true |}.

Definition col_Title : SqlResultSetColumn :=
  {| col_name := Some "Order Title"; col_ordinal := 2;
     col_objectTypeName := "string"; col_isNullable := true |}.

Definition col_unnamed : SqlResultSetColumn :=
  {| col_name := None; col_ordinal := 3;
     col_objectTypeName := "decimal"; col_isNullable := false |}.

Definition col_extra : SqlResultSetColumn :=
  {| col_name := Some "Extra"; col_ordinal := 1;
     col_objectTypeName := "bool"; col_isNullable := true |}.

Definition sales_GetOrders : SqlStoredProcedure :=
  {| sp_schema := Some "sales"; sp_name := "GetOrders";
     resultSets := Some [ {| columns := [col_Id; col_Title; col_unnamed] |};
                          {| columns := [col_extra] |} ] |}.

Definition dbo_Touch : SqlStoredProcedure :=
  {| sp_schema := Some "dbo"; sp_name := "Touch"; resultSets := Some [] |}.

Definition dbo_Purge : SqlStoredProcedure :=
  {| sp_schema := Some "dbo"; sp_name := "Purge"; resultSets := None |}.

Definition dbo_Count : SqlStoredProcedure :=
  {| sp_schema := Some "dbo"; sp_name := "Count";
     resultSets := Some [ {| columns := [col_unnamed] |} ] |}.

(** Modelled from the spec: [SqlToCSharpTypeMapper.canBeNullable] is not
    among the sources; the predicate holds for "value types that require
    an explicit nullable wrapper", given here by a few C# value types,
    enough for the examples. *)
Definition canBeNullable (typeName : string) : bool :=
  existsb (String.eqb typeName) ["int"; "bool"; "decimal"; "DateTime"; "Guid"].

(** *** Vocabulary of the further properties *)

(** Some character of the string is a word character. *)
Fixpoint has_word_char (s : string) : bool :=
  match s with
  | EmptyString => false
  | String c rest => Js.is_word_char c || has_word_char rest
  end.

(** The schema prefix of a method name: the capitalized cleaned schema and
    an underscore when the schema qualifies, nothing otherwise. *)
Definition schemaPrefix (includeSchema : bool) (capitalize : string -> string)
           (schema : option string) : string :=
  if DefaultReverseSqlObjectNameProvider.qualifies includeSchema schema
  then capitalize (DefaultReverseSqlObjectNameProvider.cleanup (Js.text schema)) ++ "_"
  else "".

(** A function on strings that maps strings of word characters to strings
    of word characters. *)
Definition keeps_word_chars (f : string -> string) : Prop :=
  forall s : string, all_word_chars s = true -> all_word_chars (f s) = true.

Definition dbo_Empty : SqlStoredProcedure :=
  {| sp_schema := Some "dbo"; sp_name := "Empty";
     resultSets := Some [ {| columns := [] |}; {| columns := [col_extra] |} ] |}.

(** *** The character sets of [cleanup] *)

(** The characters the regular expression keeps, written out one by
    one. *)
Definition ascii_word_characters : string :=
  "ABCDEFGHIJKLMNOPQRSTUVWXYZabcdefghijklmnopqrstuvwxyz0123456789_".

(** [c] occurs in [s]. *)
Fixpoint member (c : ascii) (s : string) : bool :=
  match s with
  | EmptyString => false
  | String d rest => Ascii.eqb c d || member c rest
  end.

(** [c] is one of the 63 characters of [ascii_word_characters]. *)
Definition in_ascii_word_set (c : ascii) : bool :=
  member c ascii_word_characters.

(** Every character of [s] is in the set. *)
Fixpoint all_in_ascii_word_set (s : string) : bool :=
  match s with
  | EmptyString => true
  | String c rest => in_ascii_word_set c && all_in_ascii_word_set rest
  end.

(** A letter, as the specification's "letter/digit/underscore set" has
    it: among the code units below 256 these are the ASCII letters and
    the letters of Latin-1 (feminine and masculine ordinal, micro sign,
    and the accented letters from 192 on, without the multiplication and
    division signs). *)
Definition is_letter (c : ascii) : bool :=
  let n := N_of_ascii c in
  (((65 <=? n) && (n <=? 90)) || ((97 <=? n) && (n <=? 122))
   || (n =? 170) || (n =? 181) || (n =? 186)
   || ((192 <=? n) && (n <=? 214)) || ((216 <=? n) && (n <=? 246))
   || ((248 <=? n) && (n <=? 255)))%N.

Definition is_digit (c : ascii) : bool :=
  let n := N_of_ascii c in ((48 <=? n) && (n <=? 57))%N.

(** The specification's letter/digit/underscore set. *)
Definition is_letter_digit_underscore (c : ascii) : bool :=
  is_letter c || is_digit c || Ascii.eqb c "_".

(** The letter e with acute accent, code unit 233. *)
Definition e_acute : ascii := ascii_of_N 233.

(** The word "cafe" with its accent. *)
Definition cafe : string := "caf" ++ String e_acute "".

(** *** Decimal numerals *)

(** The value of a digit character, by its code unit (48 to 57). *)
Definition digit_value (c : ascii) : option N :=
  let n := N_of_ascii c in
  if ((48 <=? n) && (n <=? 57))%N then Some (n - 48)%N else None.

(** The value of the digits of [s] read after the value [acc] of the
    digits before them. *)
Fixpoint decimal_value_from (acc : N) (s : string) : option N :=
  match s with
  | EmptyString => Some acc
  | String c rest =>
      match digit_value c with
      | Some d => decimal_value_from (10 * acc + d)%N rest
      | None => None
      end
  end.

(** A numeral without a superfluous leading zero. *)
Definition canonical_numeral (s : string) : bool :=
  match s with
  | String "0"%char (String _ _) => false
  | _ => true
  end.

(** The number a decimal numeral denotes: [None] for the empty string and
    for a string with a character that is no digit. *)
Definition decimal_value (s : string) : option N :=
  match s with
  | EmptyString => None
  | String _ _ => decimal_value_from 0%N s
  end.

End Spec.

(* ================================================================== *)
(** ** ResultSetClassBuilder on the provider object it holds *)
(* ================================================================== *)

(** The builder calls [getResultSetClassName] and
    [getResultSetColumnPropertyName] on [this.objectNameProvider].  The
    interface [ReverseSqlObjectNameProvider] declares neither, and the
    class [DefaultReverseSqlObjectNameProvider] defines neither (their
    methods are [getStoredProcedureResultSetClassName] and
    [getColumnPropertyName]).  Whether a call succeeds therefore depends
    on the object: this module follows the member lookup, and the
    [TypeError] of calling a member that is [undefined].  The definitions
    of [ResultSetClassBuilder] above are the same loops for an object on
    which both members are functions. *)
Module BuilderObject.

(** The exception of [obj.member(...)] when [obj.member] is
    [undefined]: "obj.member is not a function". *)
Inductive JsError : Type :=
| TypeError_not_a_function (member : string).

(** How a call ends. *)
Inductive Outcome (A : Type) : Type :=
| Returned (value : A)
| Threw (error : JsError).

Arguments Returned {A} value.
Arguments Threw {A} error.

Definition bind {A B : Type} (m : Outcome A) (k : A -> Outcome B) : Outcome B :=
  match m with
  | Returned a => k a
  | Threw e => Threw e
  end.

Declare Scope outcome_scope.
Delimit Scope outcome_scope with outcome.
Notation "x <- m ;; k" := (bind m (fun x => k))
  (at level 61, m at next level, right associativity) : outcome_scope.
Local Open Scope outcome_scope.

(** A provider object at run time: the twelve methods of the interface,
    and the two further members the builder looks up, each a function or
    [undefined]. *)
Record ProviderObject := mkProviderObject {
  declared : ReverseSqlObjectNameProvider;
  member_getResultSetClassName : option (SqlStoredProcedure -> string);
  member_getResultSetColumnPropertyName : option (SqlResultSetColumn -> string)
}.

(** [ReverseSqlOptions], with the provider as the object it is. *)
Record ReverseSqlOptions := mkOptions {
  opt_objectNameProvider : option ProviderObject;
  opt_includeSchema : option bool
}.

Section Instance.

Variable capitalize : string -> string.
Variable upperToLowerCamelCase : string -> string.
Variable isReservedKeyword : string -> bool.

(** [SqlToCSharpTypeMapper.canBeNullable], whose module is not among the
    sources. *)
Variable canBeNullable : string -> bool.

(** [new DefaultReverseSqlObjectNameProvider(includeSchema)]: an object
    with the methods of the class, and no other member. *)
Definition newDefaultReverseSqlObjectNameProvider (includeSchema : bool)
  : ProviderObject :=
  {| declared :=
       DefaultReverseSqlObjectNameProvider.provider
         includeSchema capitalize upperToLowerCamelCase isReservedKeyword;
     member_getResultSetClassName := None;
     member_getResultSetColumnPropertyName := None |}.

(** The constructor: the object it stores in [this.objectNameProvider]. *)
Definition constructor (options : option ReverseSqlOptions) : ProviderObject :=
  let opts :=
    match options with
    | Some o => o
    | None => {| opt_objectNameProvider := None; opt_includeSchema := None |}
    end in
  match opt_objectNameProvider opts with
  | Some objectNameProvider => objectNameProvider
  | None =>
      newDefaultReverseSqlObjectNameProvider
        (match opt_includeSchema opts with Some b => b || false | None => false end)
  end.

(** [obj.name(argument)], for the member [name] of [obj] as looked up. *)
Definition call {A B : Type} (name : string) (member : option (A -> B))
           (argument : A) : Outcome B :=
  match member with
  | Some method => Returned (method argument)
  | None => Threw (TypeError_not_a_function name)
  end.

(** [arr.forEach(callback)] for a callback that may throw: an exception
    ends the loop and is the loop's outcome. *)
Fixpoint forEach {A St : Type} (arr : list A) (callback : St -> A -> Outcome St)
         (st : St) : Outcome St :=
  match arr with
  | [] => Returned st
  | x :: rest => st' <- callback st x ;; forEach rest callback st'
  end.

Variable objectNameProvider : ProviderObject.

(** The callback of the inner [forEach]. *)
Definition addProperty (properties : list PropertyDefinition)
           (col : SqlResultSetColumn) : Outcome (list PropertyDefinition) :=
  propertyName <-
    call "getResultSetColumnPropertyName"
         (member_getResultSetColumnPropertyName objectNameProvider) col ;;
  let property :=
    {| prop_name := propertyName;
       prop_typeName := col_objectTypeName col;
       prop_accessModifier := "public";
       prop_isNullable := None |} in
  let property :=
    {| prop_name := prop_name property;
       prop_typeName := prop_typeName property;
       prop_accessModifier := prop_accessModifier property;
       prop_isNullable :=
         Some (col_isNullable col && canBeNullable (col_objectTypeName col)) |} in
  Returned (Js.push properties property).

(** The callback of the outer [forEach]. *)
Definition addClass (classDefinitions : list ClassDefinition)
           (sp : SqlStoredProcedure) : Outcome (list ClassDefinition) :=
  match resultSets sp with
  | None => Returned classDefinitions
  | Some [] => Returned classDefinitions
  | Some (first :: _) =>
      name <-
        call "getResultSetClassName"
             (member_getResultSetClassName objectNameProvider) sp ;;
      properties <- forEach (columns first) addProperty [] ;;
      let classDefinition :=
        {| class_name := name;
           class_accessModifier := "public";
           class_properties := properties |} in
      Returned (Js.push classDefinitions classDefinition)
  end.

Definition buildStoredProcResultSetClasses
           (storedProcedures : list SqlStoredProcedure)
  : Outcome (list ClassDefinition) :=
  let classDefinitions := [] in
  forEach storedProcedures addClass classDefinitions.

End Instance.

(** *** Sample provider objects *)

(** A provider object a caller passes in the options: the default
    provider, extended by the two members the builder calls, which hand
    over to [getStoredProcedureResultSetClassName] and
    [getColumnPropertyName]. *)
Definition extendedProvider (includeSchema : bool) : ProviderObject :=
  {| declared :=
       DefaultReverseSqlObjectNameProvider.provider
         includeSchema Spec.capitalize Spec.upperToLowerCamelCase
         Spec.isReservedKeyword;
     member_getResultSetClassName :=
       Some (DefaultReverseSqlObjectNameProvider.getStoredProcedureResultSetClassName
               includeSchema);
     member_getResultSetColumnPropertyName :=
       Some DefaultReverseSqlObjectNameProvider.getColumnPropertyName |}.

(** A provider object with the first of the two members only. *)
Definition classNameOnlyProvider : ProviderObject :=
  {| declared :=
       DefaultReverseSqlObjectNameProvider.provider
         false Spec.capitalize Spec.upperToLowerCamelCase Spec.isReservedKeyword;
     member_getResultSetClassName :=
       Some (fun sp => (sp_name sp ++ "Row")%string);
     member_getResultSetColumnPropertyName := None |}.

End BuilderObject.

(* ================================================================== *)
(** ** Facts about the string primitives *)
(* ================================================================== *)

Module JsFacts.

Import Spec.

Create HintDb js_strings.

Lemma replace_by_empty_retains (keeps : ascii -> bool) (s : string) :
  Js.replace_class_global (fun c => negb (keeps c)) "" s = retain keeps s.
Proof.
  induction s as [|c rest IH]; simpl; [reflexivity|].
  destruct (keeps c); simpl; now rewrite IH.
Qed.

Lemma retain_all (s : string) :
  all_word_chars (retain Js.is_word_char s) = true.
Proof.
  induction s as [|c rest IH]; simpl; [reflexivity|].
  destruct (Js.is_word_char c) eqn:E; simpl; [rewrite E|]; exact IH.
Qed.

Lemma retain_fixpoint (s : string) :
  all_word_chars s = true -> retain Js.is_word_char s = s.
Proof.
  induction s as [|c rest IH]; simpl; [reflexivity|].
  intros H. apply andb_prop in H as [Hc Hrest].
  rewrite Hc. f_equal. now apply IH.
Qed.

Lemma retain_occurrences (keeps : ascii -> bool) (c : ascii) (s : string) :
  occurrences c (retain keeps s) = if keeps c then occurrences c s else 0.
Proof.
  induction s as [|d rest IH]; simpl.
  - now destruct (keeps c).
  - destruct (keeps d) eqn:Ed; simpl; rewrite IH.
    + destruct (keeps c) eqn:Ec; [reflexivity|].
      destruct (Ascii.eqb_spec c d) as [->|_]; [congruence|reflexivity].
    + destruct (Ascii.eqb_spec c d) as [->|_]; [now rewrite Ed|reflexivity].
Qed.

Lemma retain_subsequence (keeps : ascii -> bool) (s : string) :
  Subsequence (retain keeps s) s.
Proof.
  induction s as [|c rest IH]; simpl.
  - constructor.
  - destruct (keeps c); now constructor.
Qed.

Lemma substring_whole (s : string) :
  String.substring 0 (String.length s) s = s.
Proof.
  induction s as [|c rest IH]; simpl; [reflexivity|now rewrite IH].
Qed.

Lemma prefix_empty (s : string) : String.prefix "" s = true.
Proof. now destruct s. Qed.

(** [name.startsWith('@') ? name.slice(1) : name] strips one marker. *)
Lemma startsWith_slice_strips (s : string) :
  (if Js.startsWith s "@" then Js.slice s 1 else s) = strip_marker s.
Proof.
  destruct s as [|c rest]; [reflexivity|].
  unfold Js.startsWith, Js.slice, strip_marker.
  cbn [String.prefix String.length String.substring Nat.sub].
  rewrite Nat.sub_0_r, substring_whole.
  destruct (ascii_dec "@" c) as [<-|Hne].
  - now rewrite prefix_empty.
  - destruct c as [[] [] [] [] [] [] [] []]; try reflexivity.
    now contradiction Hne.
Qed.

Lemma append_length (a b : string) :
  String.length (a ++ b) = String.length a + String.length b.
Proof.
  induction a as [|c rest IH]; simpl; [reflexivity|now rewrite IH].
Qed.

Lemma marker_prefix_differs (s : string) : "@" ++ s <> s.
Proof.
  intros H. apply (f_equal String.length) in H. simpl in H. lia.
Qed.

#[export] Hint Resolve retain_subsequence retain_all prefix_empty : js_strings.

(** The class [\w] is the set of the 63 characters written out. *)
Lemma is_word_char_ascii_set (c : ascii) :
  Js.is_word_char c = in_ascii_word_set c.
Proof.
  destruct c as [[] [] [] [] [] [] [] []]; reflexivity.
Qed.

Lemma all_word_chars_ascii_set (s : string) :
  all_word_chars s = all_in_ascii_word_set s.
Proof.
  induction s as [|c rest IH]; simpl; [reflexivity|].
  now rewrite IH, is_word_char_ascii_set.
Qed.

(** Reading the digits of [d] after a value [acc]. *)
Lemma decimal_value_from_digits (d : Decimal.uint) (acc : N) :
  decimal_value_from acc (NilEmpty.string_of_uint d)
  = Some (match acc with
          | N0 => Pos.of_uint d
          | Npos p => Npos (Pos.of_uint_acc d p)
          end).
Proof.
  revert acc.
  induction d as [|d IH|d IH|d IH|d IH|d IH|d IH|d IH|d IH|d IH|d IH];
    intros acc; cbn [NilEmpty.string_of_uint decimal_value_from];
    [now destruct acc|..];
    match goal with
    | |- context [digit_value ?c] =>
        let v := eval vm_compute in (digit_value c) in
        change (digit_value c) with v
    end;
    cbv iota; rewrite IH; destruct acc as [|p]; cbn [N.mul N.add Pos.of_uint Pos.of_uint_acc];
    try reflexivity; now rewrite Pos.add_comm.
Qed.

Lemma to_uint_nonnil (n : N) : N.to_uint n <> Decimal.Nil.
Proof.
  destruct n as [|p]; [discriminate|]. apply DecimalPos.Unsigned.to_uint_nonnil.
Qed.

Lemma decimal_value_digits (d : Decimal.uint) :
  d <> Decimal.Nil ->
  decimal_value (NilZero.string_of_uint d) = Some (Pos.of_uint d).
Proof.
  intros Hd. rewrite <- (decimal_value_from_digits d 0).
  destruct d; [now contradiction Hd|reflexivity..].
Qed.

(** The digits printed for [n] denote [n]. *)
Lemma decimal_value_number_to_string (n : N) :
  decimal_value (Js.number_to_string n) = Some n.
Proof.
  unfold Js.number_to_string.
  rewrite decimal_value_digits by apply to_uint_nonnil.
  exact (f_equal Some (DecimalN.Unsigned.of_to n)).
Qed.

Lemma nzhead_no_leading_zero (d d' : Decimal.uint) :
  Decimal.nzhead d <> Decimal.D0 d'.
Proof.
  induction d; simpl; try discriminate; exact IHd.
Qed.

(** The digits printed for [n] have no superfluous leading zero. *)
Lemma number_to_string_canonical (n : N) :
  canonical_numeral (Js.number_to_string n) = true.
Proof.
  unfold Js.number_to_string, NilZero.string_of_uint.
  pose proof (DecimalN.Unsigned.to_of (N.to_uint n)) as Hnorm.
  rewrite DecimalN.Unsigned.of_to in Hnorm.
  destruct (N.to_uint n) as [|d|d|d|d|d|d|d|d|d|d] eqn:E; try reflexivity.
  assert (Hd : d = Decimal.Nil).
  { unfold Decimal.unorm in Hnorm. simpl in Hnorm.
    destruct (Decimal.nzhead d) eqn:Ez;
      try (injection Hnorm as <-; reflexivity);
      try discriminate Hnorm.
    exfalso. apply (nzhead_no_leading_zero d d). now rewrite Ez, <- Hnorm. }
  subst d. reflexivity.
Qed.

End JsFacts.

(* ================================================================== *)
(** ** Properties of the default name provider *)
(* ================================================================== *)

Module NameProviderFacts.

Import Spec JsFacts.
Module P := DefaultReverseSqlObjectNameProvider.

(** Unfold a provider method and the JavaScript helpers under it. *)
Ltac unfold_provider :=
  unfold P.getTableClassName, P.getTableTypeClassName,
    P.getStoredProcedureResultSetClassName, P.getStoredProcedureMethodName,
    P.getTableInsertMethodName, P.getTableDeleteMethodName,
    P.getTableUpdateMethodName, P.getTableSelectByPrimaryKeyMethodName,
    P.getTableSelectByExpressionMethodName, P.getCleanObjectNameWithSchema,
    P.getColumnPropertyName, P.getResultSetMapperClassName;
  cbn [table_schema table_name sp_schema sp_name col_name col_ordinal
       Js.truthy_opt Js.text].

(** *** [cleanup] *)

Lemma cleanup_retains (s : string) : P.cleanup s = retain Js.is_word_char s.
Proof.
  unfold P.cleanup. destruct s as [|c rest]; [reflexivity|].
  cbn [Js.truthy negb]. apply replace_by_empty_retains.
Qed.

Example cleanup_brackets : P.cleanup "[Order Details]" = "OrderDetails".
Proof. reflexivity. Qed.

Example cleanup_keeps_underscore_digits : P.cleanup "tbl_2024-Q1" = "tbl_2024Q1".
Proof. reflexivity. Qed.

Example cleanup_empty : P.cleanup "" = "".
Proof. reflexivity. Qed.

(** Code units outside ASCII are not in [\w]: an accented letter (here
    the code unit 233) is removed like any other character. *)
Example cleanup_drops_non_ascii :
  P.cleanup (String "c" (String "a" (String "f" (String (ascii_of_N 233) "s"))))
  = "cafs".
Proof. reflexivity. Qed.

(** C7: [cleanup] is idempotent: cleaning an already cleaned string
    changes nothing, for every input string. *)
Theorem cleanup_idempotent (s : string) : P.cleanup (P.cleanup s) = P.cleanup s.
Proof.
  rewrite !cleanup_retains.
  apply retain_fixpoint, retain_all.
Qed.

(** C8, as stated, fails: the accented letter of "cafe" (code unit 233)
    belongs to the letter/digit/underscore set, occurs once in the input,
    and does not occur in the cleaned string, which is ["caf"]. *)
Lemma cleanup_removes_accented_letter :
  is_letter_digit_underscore e_acute = true
  /\ occurrences e_acute cafe = 1
  /\ occurrences e_acute (P.cleanup cafe) = 0
  /\ P.cleanup cafe = "caf".
Proof. repeat split. Qed.

(** C8, as the code has it: [cleanup] keeps exactly the characters of the
    ASCII set [A-Z], [a-z], [0-9] and ['_'] (the 63 characters of
    [ascii_word_characters]): the result consists of characters of that
    set only, every character of the set occurs in it as often as in the
    input and no other character (a letter outside ASCII included) occurs
    at all, and the result is a subsequence of the input, so the retained
    characters keep their relative order. *)
Theorem cleanup_keeps_exactly_ascii_word_chars (s : string) :
  all_in_ascii_word_set (P.cleanup s) = true
  /\ (forall c : ascii,
         occurrences c (P.cleanup s)
         = if in_ascii_word_set c then occurrences c s else 0)
  /\ Subsequence (P.cleanup s) s.
Proof.
  rewrite cleanup_retains. split; [|split].
  - rewrite <- all_word_chars_ascii_set. apply retain_all.
  - intros c. rewrite <- is_word_char_ascii_set. apply retain_occurrences.
  - apply retain_subsequence.
Qed.

(** *** Class names *)

Lemma qualifies_true (schema : string) :
  schema <> "" -> schema <> "dbo" -> P.qualifies true (Some schema) = true.
Proof.
  intros Hne Hdbo. unfold P.qualifies. cbn [Js.truthy_opt andb].
  destruct (String.eqb_spec schema "dbo") as [E|_]; [contradiction|].
  destruct schema; [contradiction|reflexivity].
Qed.

Lemma qualifies_false (includeSchema : bool) (schema : option string) :
  includeSchema = false \/ schema = None \/ schema = Some "" \/ schema = Some "dbo" ->
  P.qualifies includeSchema schema = false.
Proof.
  unfold P.qualifies.
  intros [-> | [-> | [-> | ->]]]; try reflexivity;
    destruct includeSchema; reflexivity.
Qed.

(** C2, as the code has it: with [includeSchema] set and a schema that is
    present and not ['dbo'], the table class name is the cleaned schema
    name, its casing unchanged, then ['_'], then the cleaned table name;
    the result-set class name of a stored procedure has the same prefix
    and the suffix ['Result']. *)
Theorem class_names_carry_cleaned_schema
        (schema name : string) (rs : option (list SqlResultSet)) :
  schema <> "" -> schema <> "dbo" ->
  P.getTableClassName true (mkDbTable (Some schema) name)
  = P.cleanup schema ++ "_" ++ P.cleanup name
  /\ P.getStoredProcedureResultSetClassName true
       (mkStoredProcedure (Some schema) name rs)
     = P.cleanup schema ++ "_" ++ P.cleanup name ++ "Result".
Proof.
  intros Hne Hdbo. unfold_provider.
  now rewrite (qualifies_true schema Hne Hdbo).
Qed.

Lemma class_names_carry_cleaned_schema_witness :
  "sales" <> "" /\ "sales" <> "dbo"
  /\ P.getTableClassName true (mkDbTable (Some "sales") "GetOrders")
  = P.cleanup "sales" ++ "_" ++ P.cleanup "GetOrders"
  /\ P.getStoredProcedureResultSetClassName true
       (mkStoredProcedure (Some "sales") "GetOrders" None)
     = P.cleanup "sales" ++ "_" ++ P.cleanup "GetOrders" ++ "Result".
Proof.
  split; [discriminate|]. split; [discriminate|].
  apply (class_names_carry_cleaned_schema "sales" "GetOrders" None);
    discriminate.
Defined.

(** C2, as stated, fails: for the table [sales.Orders] the class name is
    ["sales_Orders"], not the capitalized ["Sales_Orders"], and for the
    stored procedure [sales.GetOrders] the result-set class name is
    ["sales_GetOrdersResult"], not ["Sales_GetOrdersResult"]. *)
Lemma class_names_schema_not_capitalized :
  P.getTableClassName true sales_Orders = "sales_Orders"
  /\ P.cleanup (capitalize "sales") ++ "_" ++ P.cleanup "Orders" = "Sales_Orders"
  /\ P.getTableClassName true sales_Orders
     <> P.cleanup (capitalize "sales") ++ "_" ++ P.cleanup "Orders"
  /\ P.getStoredProcedureResultSetClassName true sales_GetOrders
     = "sales_GetOrdersResult"
  /\ P.getStoredProcedureResultSetClassName true sales_GetOrders
     <> "Sales_GetOrdersResult".
Proof.
  repeat split; try reflexivity; vm_compute; discriminate.
Qed.

(** *** The schema-qualification rule across the provider *)

(** Tables, stored procedures and the CRUD method names drop the prefix
    when qualification is off or the schema is missing, empty or
    ['dbo']. *)
Lemma unqualified_names (includeSchema : bool) (capitalize : string -> string)
      (schema : option string) (name : string) (rs : option (list SqlResultSet)) :
  includeSchema = false \/ schema = None \/ schema = Some "" \/ schema = Some "dbo" ->
  let table := mkDbTable schema name in
  let sp := mkStoredProcedure schema name rs in
  P.getTableClassName includeSchema table = P.cleanup name
  /\ P.getStoredProcedureResultSetClassName includeSchema sp
     = P.cleanup name ++ "Result"
  /\ P.getStoredProcedureMethodName includeSchema capitalize sp = P.cleanup name
  /\ P.getTableInsertMethodName includeSchema capitalize table
     = P.cleanup ("Insert" ++ capitalize name)
  /\ P.getTableDeleteMethodName includeSchema capitalize table
     = P.cleanup ("Delete" ++ capitalize name)
  /\ P.getTableUpdateMethodName includeSchema capitalize table
     = P.cleanup ("Update" ++ capitalize name)
  /\ P.getTableSelectByPrimaryKeyMethodName includeSchema capitalize table
     = P.cleanup ("Select" ++ capitalize name)
  /\ P.getTableSelectByExpressionMethodName includeSchema capitalize table
     = P.cleanup ("Select" ++ capitalize name ++ "Where").
Proof.
  intros H table sp. subst table sp. unfold_provider.
  rewrite (qualifies_false includeSchema schema H).
  repeat split; reflexivity.
Qed.

(** Table types drop the prefix when qualification is off or the schema
    is missing or empty. *)
Lemma unqualified_table_type (includeSchema : bool) (schema : option string)
      (name : string) :
  includeSchema = false \/ schema = None \/ schema = Some "" ->
  P.getTableTypeClassName includeSchema (mkDbTable schema name) = P.cleanup name.
Proof.
  unfold_provider.
  intros [-> | [-> | ->]]; try reflexivity; destruct includeSchema; reflexivity.
Qed.

(** In schema ['dbo'] a table type is prefixed all the same. *)
Lemma table_type_dbo_prefixed (name : string) :
  P.getTableTypeClassName true (mkDbTable (Some "dbo") name)
  = "dbo_" ++ P.cleanup name.
Proof. reflexivity. Qed.

(** C3: the rule "no prefix for the default schema" is not applied to
    table types: with [includeSchema] set, the table type [dbo.MyType]
    is named ["dbo_MyType"], where the table of the same schema and name
    is named ["MyType"], and so are the stored procedure and the CRUD
    methods of that schema. *)
Theorem table_type_class_name_ignores_default_schema :
  P.getTableTypeClassName true dbo_MyType = "dbo_MyType"
  /\ P.getTableClassName true dbo_MyType = "MyType"
  /\ P.getStoredProcedureMethodName true capitalize
       (mkStoredProcedure (Some "dbo") "MyType" None) = "MyType"
  /\ P.getStoredProcedureResultSetClassName true
       (mkStoredProcedure (Some "dbo") "MyType" None) = "MyTypeResult"
  /\ P.getTableInsertMethodName true capitalize dbo_MyType = "InsertMyType".
Proof. repeat split; reflexivity. Qed.

Example table_class_name_default_schema :
  P.getTableClassName false dbo_Customer = "Customer"
  /\ P.getTableClassName true dbo_Customer = "Customer".
Proof. split; reflexivity. Qed.

Example method_name_capitalizes_schema :
  P.getStoredProcedureMethodName true capitalize sales_GetOrders = "Sales_GetOrders"
  /\ P.getTableInsertMethodName true capitalize sales_Orders = "Sales_InsertOrders".
Proof. split; reflexivity. Qed.

(** *** Mapper class, column and parameter names *)

(** C10: the mapper class name is the given result-set class name
    followed by ['Mapper'], whatever the given string is: it is not
    cleaned, not schema-qualified and not checked against the reserved
    keywords, so it starts with the argument as given and is six
    characters longer. *)
Theorem getResultSetMapperClassName_appends_suffix (r : string) :
  P.getResultSetMapperClassName r = r ++ "Mapper"
  /\ String.prefix r (P.getResultSetMapperClassName r) = true
  /\ String.length (P.getResultSetMapperClassName r) = String.length r + 6.
Proof.
  unfold P.getResultSetMapperClassName. repeat split.
  - induction r as [|c rest IH]; [reflexivity|].
    cbn [String.append String.prefix].
    destruct (ascii_dec c c) as [_|Hne]; [exact IH|now contradiction Hne].
  - now rewrite append_length.
Qed.

Example mapper_name_not_cleaned :
  P.getResultSetMapperClassName "sales.Get Orders!" = "sales.Get Orders!Mapper"
  /\ P.getResultSetMapperClassName "" = "Mapper"
  /\ P.getResultSetMapperClassName "class" = "classMapper".
Proof. repeat split. Qed.

(** C9: a column without a name (the name is absent, or the empty
    string, which JavaScript treats alike) gets a positional name: for an
    ordinal that is a safe integer, ['Column'] followed by the decimal
    numeral of the ordinal, without leading zero; a column with a name
    gets the cleaned-up name. *)
Theorem getColumnPropertyName_positional_or_cleaned (col : SqlResultSetColumn) :
  (col_name col = None \/ col_name col = Some "" ->
   Js.isSafeInteger (col_ordinal col) = true ->
   exists digits : string,
     P.getColumnPropertyName col = "Column" ++ digits
     /\ decimal_value digits = Some (col_ordinal col)
     /\ canonical_numeral digits = true)
  /\ (forall name : string,
        col_name col = Some name -> name <> "" ->
        P.getColumnPropertyName col = P.cleanup name).
Proof.
  unfold P.getColumnPropertyName. split.
  - intros Hname _. exists (Js.number_to_string (col_ordinal col)).
    split; [|split].
    + destruct Hname as [-> | ->]; reflexivity.
    + apply decimal_value_number_to_string.
    + apply number_to_string_canonical.
  - intros name -> Hne. destruct name; [contradiction|reflexivity].
Qed.

Example column_names :
  P.getColumnPropertyName col_unnamed = "Column3"
  /\ P.getColumnPropertyName col_Title = "OrderTitle"
  /\ P.getColumnPropertyName (mkColumn None 12 "int" false) = "Column12"
  /\ P.getColumnPropertyName (mkColumn None 0 "int" false) = "Column0"
  /\ P.getColumnPropertyName (mkColumn (Some "") 7 "int" false) = "Column7".
Proof. repeat split. Qed.

(** C6: the parameter name is computed from the SQL name with a single
    leading ['@'] stripped, then cleaned, then converted to lower-camel
    casing; the result is that name prefixed with ['@'] exactly when the
    name is a reserved keyword, and the name itself exactly when it is
    not. *)
Theorem getParameterName_escapes_keywords
        (upperToLowerCamelCase : string -> string)
        (isReservedKeyword : string -> bool) (parameter : SqlParameter) :
  let name :=
    upperToLowerCamelCase (P.cleanup (strip_marker (param_name parameter))) in
  P.getParameterName upperToLowerCamelCase isReservedKeyword parameter
  = (if isReservedKeyword name then "@" ++ name else name)
  /\ (isReservedKeyword name = true <->
      P.getParameterName upperToLowerCamelCase isReservedKeyword parameter
      = "@" ++ name)
  /\ (isReservedKeyword name = false <->
      P.getParameterName upperToLowerCamelCase isReservedKeyword parameter
      = name).
Proof.
  intros name. unfold P.getParameterName.
  rewrite startsWith_slice_strips. fold name.
  destruct (isReservedKeyword name) eqn:E; repeat split; try congruence;
    intros H; exfalso; apply (marker_prefix_differs name); congruence.
Qed.

Example strip_marker_once :
  strip_marker "@customerId" = "customerId"
  /\ strip_marker "@@customerId" = "@customerId"
  /\ strip_marker "customerId" = "customerId"
  /\ strip_marker "" = "".
Proof. repeat split. Qed.

Example parameter_names :
  P.getParameterName upperToLowerCamelCase isReservedKeyword
    (mkParameter "@customerId") = "customerId"
  /\ P.getParameterName upperToLowerCamelCase isReservedKeyword
       (mkParameter "@CustomerId") = "customerId"
  /\ P.getParameterName upperToLowerCamelCase isReservedKeyword
       (mkParameter "@class") = "@class"
  /\ P.getParameterName upperToLowerCamelCase (String.eqb "customerId")
       (mkParameter "@customerId") = "@customerId"
  /\ P.getParameterName upperToLowerCamelCase isReservedKeyword
       (mkParameter "order id") = "orderid".
Proof. repeat split. Qed.

Lemma getColumnPropertyName_positional_or_cleaned_witness :
  (exists digits : string,
      P.getColumnPropertyName col_unnamed = "Column" ++ digits
      /\ decimal_value digits = Some 3%N
      /\ canonical_numeral digits = true)
  /\ P.getColumnPropertyName col_Title = P.cleanup "Order Title".
Proof.
  split.
  - apply (proj1 (getColumnPropertyName_positional_or_cleaned col_unnamed)).
    + left. reflexivity.
    + reflexivity.
  - apply (proj2 (getColumnPropertyName_positional_or_cleaned col_Title)
                 "Order Title").
    + reflexivity.
    + discriminate.
Defined.

(** Two unnamed columns with safe ordinals have the same positional name
    only if they have the same ordinal. *)
Lemma positional_names_differ (c1 c2 : SqlResultSetColumn) :
  col_name c1 = None -> col_name c2 = None ->
  Js.isSafeInteger (col_ordinal c1) = true ->
  Js.isSafeInteger (col_ordinal c2) = true ->
  P.getColumnPropertyName c1 = P.getColumnPropertyName c2 ->
  col_ordinal c1 = col_ordinal c2.
Proof.
  unfold P.getColumnPropertyName. intros -> -> _ _. cbn [Js.truthy_opt negb].
  intros [= H].
  pose proof (decimal_value_number_to_string (col_ordinal c1)) as H1.
  rewrite H, decimal_value_number_to_string in H1. congruence.
Qed.

End NameProviderFacts.

(* ================================================================== *)
(** ** Properties of the result-set class builder *)
(* ================================================================== *)

Module BuilderFacts.

Import Spec.
Local Open Scope list_scope.
Module B := ResultSetClassBuilder.

Section AnyProvider.

Variable getResultSetClassName : SqlStoredProcedure -> string.
Variable getResultSetColumnPropertyName : SqlResultSetColumn -> string.
Variable canBeNullable : string -> bool.

Local Abbreviation addProperty :=
  (B.addProperty getResultSetColumnPropertyName canBeNullable).
Local Abbreviation addClass :=
  (B.addClass getResultSetClassName getResultSetColumnPropertyName canBeNullable).
Local Abbreviation build :=
  (B.buildStoredProcResultSetClasses
     getResultSetClassName getResultSetColumnPropertyName canBeNullable).
Local Abbreviation propertyOf := (propertyOf getResultSetColumnPropertyName canBeNullable).
Local Abbreviation classOf :=
  (classOf getResultSetClassName getResultSetColumnPropertyName canBeNullable).

(** The inner loop pushes one property per column, in column order. *)
Lemma forEach_addProperty (cols : list SqlResultSetColumn)
      (properties : list PropertyDefinition) :
  Js.forEach cols addProperty properties = properties ++ map propertyOf cols.
Proof.
  unfold Js.forEach. revert properties.
  induction cols as [|col cols IH]; intros properties; simpl.
  - now rewrite app_nil_r.
  - rewrite IH. unfold B.addProperty, Js.push. simpl.
    now rewrite <- app_assoc.
Qed.

(** One round of the outer loop. *)
Lemma addClass_step (classDefinitions : list ClassDefinition)
      (sp : SqlStoredProcedure) :
  addClass classDefinitions sp
  = classDefinitions ++ (if hasResultSets sp then [classOf sp] else []).
Proof.
  unfold B.addClass, hasResultSets, Spec.classOf, firstColumns.
  destruct (resultSets sp) as [[|first rest]|];
    try now rewrite app_nil_r.
  cbn [class_name class_accessModifier class_properties].
  now rewrite forEach_addProperty.
Qed.

Lemma forEach_addClass (sps : list SqlStoredProcedure)
      (classDefinitions : list ClassDefinition) :
  Js.forEach sps addClass classDefinitions
  = classDefinitions ++ map classOf (filter hasResultSets sps).
Proof.
  unfold Js.forEach. revert classDefinitions.
  induction sps as [|sp sps IH]; intros classDefinitions; simpl.
  - now rewrite app_nil_r.
  - rewrite IH, addClass_step.
    destruct (hasResultSets sp); simpl.
    + now rewrite <- app_assoc.
    + now rewrite app_nil_r.
Qed.

(** The builder as a function of its input list. *)
Lemma build_map_filter (sps : list SqlStoredProcedure) :
  build sps = map classOf (filter hasResultSets sps).
Proof.
  unfold B.buildStoredProcResultSetClasses. now rewrite forEach_addClass.
Qed.

Lemma Forall2_map_r {A C : Type} (R : A -> C -> Prop) (f : A -> C) (l : list A) :
  (forall x, In x l -> R x (f x)) -> Forall2 R l (map f l).
Proof.
  induction l as [|x l IH]; intros H; simpl; constructor.
  - apply H. now left.
  - apply IH. intros y Hy. apply H. now right.
Qed.

Lemma hasResultSets_first (sp : SqlStoredProcedure) :
  hasResultSets sp = true ->
  exists first rest, resultSets sp = Some (first :: rest)
                     /\ firstColumns sp = columns first.
Proof.
  unfold hasResultSets, firstColumns.
  destruct (resultSets sp) as [[|first rest]|]; try discriminate.
  intros _. now exists first, rest.
Qed.

Lemma onlyFirstResultSet_same (sp : SqlStoredProcedure) :
  hasResultSets (onlyFirstResultSet sp) = hasResultSets sp
  /\ firstColumns (onlyFirstResultSet sp) = firstColumns sp.
Proof.
  unfold hasResultSets, firstColumns, onlyFirstResultSet; simpl.
  destruct (resultSets sp) as [[|first rest]|]; split; reflexivity.
Qed.

Lemma filter_onlyFirstResultSet (sps : list SqlStoredProcedure) :
  filter hasResultSets (map onlyFirstResultSet sps)
  = map onlyFirstResultSet (filter hasResultSets sps).
Proof.
  induction sps as [|sp sps IH]; simpl; [reflexivity|].
  rewrite (proj1 (onlyFirstResultSet_same sp)).
  destruct (hasResultSets sp); simpl; now rewrite IH.
Qed.

(** Reduce a statement about each procedure with a result set and its
    class to one procedure, with its first result set at hand. *)
Ltac per_procedure sp rs more Hrs Hcols :=
  rewrite build_map_filter; apply Forall2_map_r;
  intros sp [_ Hhas]%filter_In;
  destruct (hasResultSets_first sp Hhas) as (rs & more & Hrs & Hcols);
  exists rs, more; split; [exact Hrs|];
  unfold Spec.classOf; cbn [class_name class_accessModifier class_properties];
  rewrite Hcols.

(** For a provider on which both members the builder calls are
    functions, the loop gives exactly one class definition per stored
    procedure whose result-set list is present and not empty, in the order
    of the input list, each named by the provider's result-set class name
    of its procedure; procedures whose result-set list is empty or absent
    leave no trace in the output. *)
Theorem build_one_class_per_procedure_with_result_set
        (sps : list SqlStoredProcedure) :
  List.length (build sps) = List.length (filter hasResultSets sps)
  /\ Forall2 (fun sp cd => class_name cd = getResultSetClassName sp
                          /\ class_accessModifier cd = "public"%string)
             (filter hasResultSets sps) (build sps)
  /\ build sps = build (filter hasResultSets sps)
  /\ build (filter (fun sp => negb (hasResultSets sp)) sps) = [].
Proof.
  rewrite !build_map_filter. repeat split.
  - apply length_map.
  - apply Forall2_map_r. intros sp _. split; reflexivity.
  - f_equal. induction sps as [|sp sps IH]; simpl; [reflexivity|].
    destruct (hasResultSets sp) eqn:E; simpl; [rewrite E; now f_equal|exact IH].
  - induction sps as [|sp sps IH]; simpl; [reflexivity|].
    destruct (hasResultSets sp) eqn:E; simpl; [exact IH|now rewrite E].
Qed.

(** C5: the property list of the class synthesized for a stored procedure
    is built from the columns of its first result set alone, one property
    per column in column order (name from the provider, type name from the
    column); removing every later result set from the input changes no
    property list. *)
Theorem build_properties_from_first_result_set
        (sps : list SqlStoredProcedure) :
  Forall2 (fun sp cd =>
             exists first rest,
               resultSets sp = Some (first :: rest)
               /\ class_properties cd = map propertyOf (columns first)
               /\ map prop_name (class_properties cd)
                  = map getResultSetColumnPropertyName (columns first)
               /\ map prop_typeName (class_properties cd)
                  = map col_objectTypeName (columns first))
          (filter hasResultSets sps) (build sps)
  /\ map class_properties (build (map onlyFirstResultSet sps))
     = map class_properties (build sps).
Proof.
  split.
  - per_procedure sp rs more Hrs Hcols.
    rewrite !map_map. repeat split; reflexivity.
  - rewrite !build_map_filter, filter_onlyFirstResultSet, !map_map.
    apply map_ext. intros sp.
    unfold Spec.classOf. cbn [class_properties].
    now rewrite (proj2 (onlyFirstResultSet_same sp)).
Qed.

(** C1: for every stored procedure given to the builder and every column
    of its first result set, the property synthesized for the column has
    its [isNullable] flag set, and the flag is true if and only if the
    column is nullable and [canBeNullable] holds for the column's type
    name. *)
Theorem build_nullable_iff_column_and_type
        (sps : list SqlStoredProcedure) :
  Forall2 (fun sp cd =>
             exists first rest,
               resultSets sp = Some (first :: rest)
               /\ Forall2 (fun col property =>
                             exists flag : bool,
                               prop_isNullable property = Some flag
                               /\ (flag = true <->
                                   col_isNullable col = true
                                   /\ canBeNullable (col_objectTypeName col) = true))
                          (columns first) (class_properties cd))
          (filter hasResultSets sps) (build sps).
Proof.
  per_procedure sp rs more Hrs Hcols.
  apply Forall2_map_r. intros col _.
  exists (col_isNullable col && canBeNullable (col_objectTypeName col)).
  split; [reflexivity|apply andb_true_iff].
Qed.

End AnyProvider.

(** *** The builder with the default provider *)

Module P := DefaultReverseSqlObjectNameProvider.

Example build_sample :
  B.buildStoredProcResultSetClasses
    (P.getStoredProcedureResultSetClassName true) P.getColumnPropertyName
    canBeNullable
    [dbo_Touch; sales_GetOrders; dbo_Purge; dbo_Count]
  = [ {| class_name := "sales_GetOrdersResult";
         class_accessModifier := "public";
         class_properties :=
           [ mkProperty "Id" "int" "public" (Some true);
             mkProperty "OrderTitle" "string" "public" (Some false);
             mkProperty "Column3" "decimal" "public" (Some false) ] |};
      {| class_name := "CountResult";
         class_accessModifier := "public";
         class_properties :=
           [ mkProperty "Column3" "decimal" "public" (Some false) ] |} ].
Proof. reflexivity. Qed.

Example build_nothing :
  B.buildStoredProcResultSetClasses
    (P.getStoredProcedureResultSetClassName false) P.getColumnPropertyName
    canBeNullable [dbo_Touch; dbo_Purge] = [].
Proof. reflexivity. Qed.

End BuilderFacts.


(* ================================================================== *)
(** ** Further properties of the name provider *)
(* ================================================================== *)

Module NamingLaws.

Import Spec JsFacts.
Module P := DefaultReverseSqlObjectNameProvider.

(** *** Lemmas on strings *)

Lemma append_assoc (a b c : string) : (a ++ b) ++ c = a ++ b ++ c.
Proof.
  induction a as [|x a IH]; simpl; [reflexivity|now rewrite IH].
Qed.

Lemma retain_append (keeps : ascii -> bool) (a b : string) :
  retain keeps (a ++ b) = retain keeps a ++ retain keeps b.
Proof.
  induction a as [|x a IH]; simpl; [reflexivity|].
  destruct (keeps x); simpl; now rewrite IH.
Qed.

Lemma retain_length (keeps : ascii -> bool) (s : string) :
  String.length (retain keeps s) <= String.length s.
Proof.
  induction s as [|x s IH]; simpl; [lia|].
  destruct (keeps x); simpl; lia.
Qed.

Lemma all_word_chars_append (a b : string) :
  all_word_chars (a ++ b) = all_word_chars a && all_word_chars b.
Proof.
  induction a as [|x a IH]; simpl; [reflexivity|].
  now rewrite IH, andb_assoc.
Qed.

Lemma occurrences_append (c : ascii) (a b : string) :
  occurrences c (a ++ b) = occurrences c a + occurrences c b.
Proof.
  induction a as [|x a IH]; simpl; [reflexivity|]. rewrite IH. lia.
Qed.

Lemma cleanup_as_retain (s : string) : P.cleanup s = retain Js.is_word_char s.
Proof.
  unfold P.cleanup. destruct s as [|c rest]; [reflexivity|].
  cbn [Js.truthy negb]. apply replace_by_empty_retains.
Qed.

Lemma cleanup_append (a b : string) :
  P.cleanup (a ++ b) = P.cleanup a ++ P.cleanup b.
Proof. rewrite !cleanup_as_retain. apply retain_append. Qed.

Lemma cleanup_word_chars (s : string) : all_word_chars (P.cleanup s) = true.
Proof. rewrite cleanup_as_retain. apply retain_all. Qed.

Lemma cleanup_twice (s : string) : P.cleanup (P.cleanup s) = P.cleanup s.
Proof. rewrite !cleanup_as_retain. apply retain_fixpoint, retain_all. Qed.

Lemma digits_word_chars (d : Decimal.uint) :
  all_word_chars (NilEmpty.string_of_uint d) = true.
Proof. induction d; simpl; auto. Qed.

Lemma number_to_string_word_chars (n : N) :
  all_word_chars (Js.number_to_string n) = true.
Proof.
  unfold Js.number_to_string, NilZero.string_of_uint.
  destruct (N.to_uint n) eqn:E; try reflexivity;
    rewrite <- E; apply digits_word_chars.
Qed.

Lemma word_char_not_marker (c : ascii) :
  Js.is_word_char c = true -> c <> "@"%char.
Proof. intros H ->. discriminate H. Qed.

(** Cleaning makes the stripping of the marker redundant. *)
Lemma cleanup_strip_marker (s : string) :
  P.cleanup (strip_marker s) = P.cleanup s.
Proof.
  destruct s as [|c rest]; [reflexivity|].
  destruct (ascii_dec c "@") as [->|Hne].
  - rewrite !cleanup_as_retain. reflexivity.
  - f_equal. unfold strip_marker.
    destruct c as [[] [] [] [] [] [] [] []]; try reflexivity.
    now contradiction Hne.
Qed.

Lemma strip_marker_word_chars (s : string) :
  all_word_chars s = true -> strip_marker s = s.
Proof.
  destruct s as [|c rest]; [reflexivity|]. simpl all_word_chars.
  intros [Hc _]%andb_prop. apply word_char_not_marker in Hc.
  unfold strip_marker.
  destruct c as [[] [] [] [] [] [] [] []]; try reflexivity.
  now contradiction Hc.
Qed.

Create Rewrite HintDb naming.
#[export] Hint Rewrite all_word_chars_append cleanup_word_chars
  number_to_string_word_chars : naming.

Lemma qualifies_on (schema : string) :
  schema <> "" -> schema <> "dbo" -> P.qualifies true (Some schema) = true.
Proof.
  intros Hne Hdbo. unfold P.qualifies. cbn [Js.truthy_opt andb].
  destruct (String.eqb_spec schema "dbo") as [E|_]; [contradiction|].
  destruct schema; [contradiction|reflexivity].
Qed.

Lemma capitalize_keeps_word_chars : keeps_word_chars capitalize.
Proof.
  intros [|c rest]; [reflexivity|]. simpl.
  intros [Hc ->]%andb_prop. rewrite andb_true_r.
  destruct c as [[] [] [] [] [] [] [] []]; try discriminate Hc; reflexivity.
Qed.

Lemma upperToLowerCamelCase_keeps_word_chars :
  keeps_word_chars upperToLowerCamelCase.
Proof.
  intros [|c rest]; [reflexivity|]. simpl.
  intros [Hc ->]%andb_prop. rewrite andb_true_r.
  destruct c as [[] [] [] [] [] [] [] []]; try discriminate Hc; reflexivity.
Qed.

(** *** [cleanup] *)

(** X1: [cleanup] distributes over concatenation: cleaning a
    concatenation is concatenating the cleaned parts. *)
Theorem cleanup_distributes_over_append (a b : string) :
  P.cleanup (a ++ b) = P.cleanup a ++ P.cleanup b.
Proof. apply cleanup_append. Qed.

(** X2: [cleanup] never lengthens its input, and returns the input
    unchanged exactly when the input consists of word characters only. *)
Theorem cleanup_fixed_points (s : string) :
  String.length (P.cleanup s) <= String.length s
  /\ (P.cleanup s = s <-> all_word_chars s = true).
Proof.
  split; [|split].
  - rewrite cleanup_as_retain. apply retain_length.
  - intros H. rewrite <- H. apply cleanup_word_chars.
  - intros H. rewrite cleanup_as_retain. now apply retain_fixpoint.
Qed.

(** X3: [cleanup] returns the empty string exactly when the input has no
    word character at all (the empty input included). *)
Theorem cleanup_empty_iff_no_word_char (s : string) :
  P.cleanup s = "" <-> has_word_char s = false.
Proof.
  rewrite cleanup_as_retain.
  induction s as [|c rest IH]; simpl; [tauto|].
  destruct (Js.is_word_char c); simpl; [|exact IH].
  split; discriminate.
Qed.

(** *** Class and property names *)

(** X4: whatever the schema, the name and the [includeSchema] setting,
    the class names of tables, table types and stored-procedure result
    sets consist of word characters only. *)
Theorem class_names_are_word_chars
        (includeSchema : bool) (table : DbTable) (sp : SqlStoredProcedure) :
  all_word_chars (P.getTableClassName includeSchema table) = true
  /\ all_word_chars (P.getTableTypeClassName includeSchema table) = true
  /\ all_word_chars (P.getStoredProcedureResultSetClassName includeSchema sp) = true.
Proof.
  unfold P.getTableClassName, P.getTableTypeClassName,
    P.getStoredProcedureResultSetClassName.
  destruct (P.qualifies includeSchema (table_schema table));
    destruct (P.qualifies includeSchema (sp_schema sp));
    destruct (includeSchema && Js.truthy_opt (table_schema table));
    autorewrite with naming; repeat split; reflexivity.
Qed.

(** X5: the property name of a column consists of word characters only,
    for a named column whatever its ordinal, and for the positional
    fallback when the ordinal is a safe integer. *)
Theorem column_property_name_is_word_chars (col : SqlResultSetColumn) :
  Js.truthy_opt (col_name col) = true
  \/ Js.isSafeInteger (col_ordinal col) = true ->
  all_word_chars (P.getColumnPropertyName col) = true.
Proof.
  intros _. unfold P.getColumnPropertyName.
  destruct (negb (Js.truthy_opt (col_name col)));
    autorewrite with naming; reflexivity.
Qed.

Lemma column_property_name_is_word_chars_witness :
  all_word_chars (P.getColumnPropertyName col_unnamed) = true
  /\ all_word_chars (P.getColumnPropertyName col_Title) = true.
Proof.
  split.
  - apply (column_property_name_is_word_chars col_unnamed). right. reflexivity.
  - apply (column_property_name_is_word_chars col_Title). left. reflexivity.
Defined.

(** X6: the result-set class name of a stored procedure is the class name
    a table of the same schema and name gets, followed by ['Result']. *)
Theorem result_set_class_name_extends_table_class_name
        (includeSchema : bool) (schema : option string) (name : string)
        (rs : option (list SqlResultSet)) :
  P.getStoredProcedureResultSetClassName includeSchema
    (mkStoredProcedure schema name rs)
  = P.getTableClassName includeSchema (mkDbTable schema name) ++ "Result".
Proof.
  unfold P.getStoredProcedureResultSetClassName, P.getTableClassName.
  cbn [sp_schema sp_name table_schema table_name].
  destruct (P.qualifies includeSchema schema); [|reflexivity].
  now rewrite !append_assoc.
Qed.

(** X7: a table type gets the class name of the table of the same schema
    and name exactly when [includeSchema] is off or the schema is not
    ['dbo']. *)
Theorem table_type_name_agrees_iff (includeSchema : bool) (table : DbTable) :
  P.getTableTypeClassName includeSchema table
  = P.getTableClassName includeSchema table
  <-> (includeSchema = false \/ table_schema table <> Some "dbo").
Proof.
  unfold P.getTableTypeClassName, P.getTableClassName, P.qualifies.
  destruct includeSchema; cbn [andb]; [|split; [now left|reflexivity]].
  destruct (table_schema table) as [schema|]; cbn [Js.truthy_opt Js.text].
  - destruct (String.eqb_spec schema "dbo") as [->|Hne]; cbn [negb].
    + cbn [andb Js.truthy]. split.
      * intros H. apply (f_equal String.length) in H.
        rewrite !append_length in H. simpl in H. lia.
      * intros [H|H]; [discriminate|now contradiction H].
    + rewrite andb_true_r. split; [|reflexivity].
      intros _. right. congruence.
  - split; [|reflexivity]. intros _. right. discriminate.
Qed.

(** X12: the underscore that joins schema and name is not reserved: with
    [includeSchema] on, the table [b_c] of schema [a] and the table [c] of
    schema [a_b] get the same class name. *)
Theorem qualified_class_names_collide (a b c : string) :
  a <> "" -> a <> "dbo" ->
  P.getTableClassName true (mkDbTable (Some a) (b ++ "_" ++ c))
  = P.getTableClassName true (mkDbTable (Some (a ++ "_" ++ b)) c).
Proof.
  intros Hne Hdbo. unfold P.getTableClassName.
  cbn [table_schema table_name Js.text].
  rewrite (qualifies_on a Hne Hdbo), qualifies_on.
  - rewrite !cleanup_append, !append_assoc. reflexivity.
  - destruct a; [contradiction|discriminate].
  - intros H. apply (f_equal (occurrences "_")) in H.
    rewrite !occurrences_append in H. simpl in H. lia.
Qed.

Lemma qualified_class_names_collide_witness :
  "a" <> "" /\ "a" <> "dbo"
  /\ P.getTableClassName true (mkDbTable (Some "a") ("b" ++ "_" ++ "c"))
     = P.getTableClassName true (mkDbTable (Some ("a" ++ "_" ++ "b")) "c").
Proof.
  split; [discriminate|]. split; [discriminate|].
  apply (qualified_class_names_collide "a" "b" "c"); discriminate.
Defined.

(** *** Method names *)

Lemma schemaPrefix_word_chars (includeSchema : bool)
      (capitalize : string -> string) (schema : option string) :
  keeps_word_chars capitalize ->
  all_word_chars (schemaPrefix includeSchema capitalize schema) = true.
Proof.
  intros Hcap. unfold schemaPrefix.
  destruct (P.qualifies includeSchema schema); [|reflexivity].
  rewrite all_word_chars_append, Hcap; [reflexivity|apply cleanup_word_chars].
Qed.

Lemma getCleanObjectNameWithSchema_prefix (includeSchema : bool)
      (capitalize : string -> string) (schema : option string) (name : string) :
  P.getCleanObjectNameWithSchema includeSchema capitalize schema name
  = schemaPrefix includeSchema capitalize schema ++ P.cleanup name.
Proof.
  unfold P.getCleanObjectNameWithSchema, schemaPrefix.
  destruct (P.qualifies includeSchema schema); [|reflexivity].
  now rewrite append_assoc.
Qed.

(** X9: every CRUD method name is the schema prefix of the table, the
    verb, and the cleaned-up capitalized table name: cleaning the composed
    name leaves the verb alone, and the five names of a table differ only
    in the verb and the ['Where'] suffix. *)
Theorem crud_method_names_shape (includeSchema : bool)
        (capitalize : string -> string) (table : DbTable) :
  let prefix := schemaPrefix includeSchema capitalize (table_schema table) in
  let entity := P.cleanup (capitalize (table_name table)) in
  P.getTableInsertMethodName includeSchema capitalize table
  = prefix ++ "Insert" ++ entity
  /\ P.getTableDeleteMethodName includeSchema capitalize table
     = prefix ++ "Delete" ++ entity
  /\ P.getTableUpdateMethodName includeSchema capitalize table
     = prefix ++ "Update" ++ entity
  /\ P.getTableSelectByPrimaryKeyMethodName includeSchema capitalize table
     = prefix ++ "Select" ++ entity
  /\ P.getTableSelectByExpressionMethodName includeSchema capitalize table
     = prefix ++ "Select" ++ entity ++ "Where".
Proof.
  intros prefix entity. subst prefix entity.
  unfold P.getTableInsertMethodName, P.getTableDeleteMethodName,
    P.getTableUpdateMethodName, P.getTableSelectByPrimaryKeyMethodName,
    P.getTableSelectByExpressionMethodName.
  rewrite !getCleanObjectNameWithSchema_prefix, !cleanup_append.
  repeat split; reflexivity.
Qed.

(** X10: the name of the select-by-expression method is the name of the
    select-by-primary-key method followed by ['Where']. *)
Theorem select_by_expression_extends_select_by_key (includeSchema : bool)
        (capitalize : string -> string) (table : DbTable) :
  P.getTableSelectByExpressionMethodName includeSchema capitalize table
  = P.getTableSelectByPrimaryKeyMethodName includeSchema capitalize table
    ++ "Where".
Proof.
  unfold P.getTableSelectByPrimaryKeyMethodName,
    P.getTableSelectByExpressionMethodName.
  rewrite !getCleanObjectNameWithSchema_prefix, !cleanup_append, !append_assoc.
  reflexivity.
Qed.

(** X8: when [capitalize] maps word characters to word characters, the
    stored-procedure method name and the five CRUD method names consist of
    word characters only. *)
Theorem method_names_are_word_chars (includeSchema : bool)
        (capitalize : string -> string) (table : DbTable)
        (sp : SqlStoredProcedure) :
  keeps_word_chars capitalize ->
  all_word_chars (P.getStoredProcedureMethodName includeSchema capitalize sp) = true
  /\ all_word_chars (P.getTableInsertMethodName includeSchema capitalize table) = true
  /\ all_word_chars (P.getTableDeleteMethodName includeSchema capitalize table) = true
  /\ all_word_chars (P.getTableUpdateMethodName includeSchema capitalize table) = true
  /\ all_word_chars
       (P.getTableSelectByPrimaryKeyMethodName includeSchema capitalize table) = true
  /\ all_word_chars
       (P.getTableSelectByExpressionMethodName includeSchema capitalize table) = true.
Proof.
  intros Hcap.
  unfold P.getStoredProcedureMethodName, P.getTableInsertMethodName,
    P.getTableDeleteMethodName, P.getTableUpdateMethodName,
    P.getTableSelectByPrimaryKeyMethodName,
    P.getTableSelectByExpressionMethodName.
  rewrite !getCleanObjectNameWithSchema_prefix.
  autorewrite with naming.
  rewrite !(schemaPrefix_word_chars _ _ _ Hcap).
  repeat split; reflexivity.
Qed.

Lemma method_names_are_word_chars_witness :
  all_word_chars (P.getStoredProcedureMethodName true capitalize sales_GetOrders) = true
  /\ all_word_chars (P.getTableInsertMethodName true capitalize sales_Orders) = true
  /\ all_word_chars (P.getTableDeleteMethodName true capitalize sales_Orders) = true
  /\ all_word_chars (P.getTableUpdateMethodName true capitalize sales_Orders) = true
  /\ all_word_chars
       (P.getTableSelectByPrimaryKeyMethodName true capitalize sales_Orders) = true
  /\ all_word_chars
       (P.getTableSelectByExpressionMethodName true capitalize sales_Orders) = true.
Proof.
  apply (method_names_are_word_chars true capitalize sales_Orders sales_GetOrders).
  exact capitalize_keeps_word_chars.
Defined.

(** *** Parameter names *)

(** X11: the parameter name depends on the SQL name only through its
    cleaned-up form, so a name with a leading ['@'], with several, or with
    none gives the same parameter name. *)
Theorem parameter_name_ignores_markers
        (upperToLowerCamelCase : string -> string)
        (isReservedKeyword : string -> bool) (name : string) :
  P.getParameterName upperToLowerCamelCase isReservedKeyword (mkParameter name)
  = P.getParameterName upperToLowerCamelCase isReservedKeyword
      (mkParameter (P.cleanup name))
  /\ P.getParameterName upperToLowerCamelCase isReservedKeyword
       (mkParameter ("@" ++ name))
     = P.getParameterName upperToLowerCamelCase isReservedKeyword
         (mkParameter name).
Proof.
  unfold P.getParameterName. cbn [param_name].
  rewrite !startsWith_slice_strips, !cleanup_strip_marker.
  split.
  - now rewrite cleanup_twice.
  - rewrite cleanup_append. reflexivity.
Qed.

(** X13: when the lower-camel conversion maps word characters to word
    characters, the only character of a parameter name that can be other
    than a word character is a single leading ['@']: with that marker
    stripped, the name consists of word characters only. *)
Theorem parameter_name_is_word_chars_after_marker
        (upperToLowerCamelCase : string -> string)
        (isReservedKeyword : string -> bool) (parameter : SqlParameter) :
  keeps_word_chars upperToLowerCamelCase ->
  all_word_chars
    (strip_marker
       (P.getParameterName upperToLowerCamelCase isReservedKeyword parameter))
  = true.
Proof.
  intros Hlc. unfold P.getParameterName.
  set (name := upperToLowerCamelCase _).
  assert (Hname : all_word_chars name = true)
    by (apply Hlc, cleanup_word_chars).
  destruct (isReservedKeyword name); [exact Hname|].
  now rewrite strip_marker_word_chars.
Qed.

Lemma parameter_name_is_word_chars_after_marker_witness :
  all_word_chars
    (strip_marker
       (P.getParameterName upperToLowerCamelCase isReservedKeyword
          (mkParameter "@class")))
  = true.
Proof.
  apply (parameter_name_is_word_chars_after_marker
           upperToLowerCamelCase isReservedKeyword (mkParameter "@class")).
  exact upperToLowerCamelCase_keeps_word_chars.
Defined.

End NamingLaws.

(* ================================================================== *)
(** ** Further properties of the result-set class builder *)
(* ================================================================== *)

Module BuilderLaws.

Import Spec.
Local Open Scope list_scope.
Module B := ResultSetClassBuilder.
Module P := DefaultReverseSqlObjectNameProvider.

Section AnyProvider.

Variable getResultSetClassName : SqlStoredProcedure -> string.
Variable getResultSetColumnPropertyName : SqlResultSetColumn -> string.
Variable canBeNullable : string -> bool.

Local Abbreviation build :=
  (B.buildStoredProcResultSetClasses
     getResultSetClassName getResultSetColumnPropertyName canBeNullable).
Local Abbreviation classOf :=
  (classOf getResultSetClassName getResultSetColumnPropertyName canBeNullable).
Local Abbreviation build_map_filter :=
  (BuilderFacts.build_map_filter
     getResultSetClassName getResultSetColumnPropertyName canBeNullable).

(** X14: building for a concatenation of two procedure lists gives the
    concatenation of the two results: each procedure is handled on its
    own, whatever precedes or follows it. *)
Theorem build_append (sps1 sps2 : list SqlStoredProcedure) :
  build (sps1 ++ sps2) = build sps1 ++ build sps2.
Proof.
  rewrite !build_map_filter, filter_app. apply map_app.
Qed.

End AnyProvider.

(** *** The constructor *)

(** X17: a builder constructed without options, or with options that name
    no provider and do not switch [includeSchema] on, uses the default
    provider without schema qualification: its class and method names
    never carry a schema prefix, whatever the schema. *)
Theorem constructor_defaults_to_unqualified_names
        (capitalize upperToLowerCamelCase : string -> string)
        (isReservedKeyword : string -> bool)
        (options : option B.ReverseSqlOptions)
        (table : DbTable) (sp : SqlStoredProcedure) :
  (forall o, options = Some o ->
             B.opt_objectNameProvider o = None
             /\ B.opt_includeSchema o <> Some true) ->
  let provider :=
    B.constructor capitalize upperToLowerCamelCase isReservedKeyword options in
  @getTableClassName provider table = P.cleanup (table_name table)
  /\ @getTableTypeClassName provider table = P.cleanup (table_name table)
  /\ @getStoredProcedureResultSetClassName provider sp
     = (P.cleanup (sp_name sp) ++ "Result")%string
  /\ @getStoredProcedureMethodName provider sp = P.cleanup (sp_name sp)
  /\ @getTableInsertMethodName provider table
     = P.cleanup ("Insert" ++ capitalize (table_name table))%string.
Proof.
  intros H provider. subst provider. unfold B.constructor.
  destruct options as [o|].
  - destruct (H o eq_refl) as [-> Hinc].
    destruct (B.opt_includeSchema o) as [[]|];
      [now contradiction Hinc|repeat split..].
  - repeat split.
Qed.

Lemma constructor_defaults_to_unqualified_names_witness :
  let provider :=
    B.constructor capitalize upperToLowerCamelCase isReservedKeyword
                  (Some (B.mkOptions None (Some false))) in
  @getTableClassName provider sales_Orders = P.cleanup "Orders"
  /\ @getTableTypeClassName provider sales_Orders = P.cleanup "Orders"
  /\ @getStoredProcedureResultSetClassName provider sales_GetOrders
     = (P.cleanup "GetOrders" ++ "Result")%string
  /\ @getStoredProcedureMethodName provider sales_GetOrders = P.cleanup "GetOrders"
  /\ @getTableInsertMethodName provider sales_Orders
     = P.cleanup ("Insert" ++ capitalize "Orders")%string.
Proof.
  apply (constructor_defaults_to_unqualified_names
           capitalize upperToLowerCamelCase isReservedKeyword
           (Some (B.mkOptions None (Some false))) sales_Orders sales_GetOrders).
  intros o [= <-]. split; [reflexivity|discriminate].
Defined.

End BuilderLaws.


(* ================================================================== *)
(** ** The builder on its provider object *)
(* ================================================================== *)

Module BuilderObjectFacts.

Import Spec.
Local Open Scope list_scope.
Module B := ResultSetClassBuilder.
Module O := BuilderObject.
Import O (Returned, Threw, TypeError_not_a_function).

Section AnyObject.

Variable canBeNullable : string -> bool.
Variable this : O.ProviderObject.

Local Abbreviation addProperty := (O.addProperty canBeNullable this).
Local Abbreviation addClass := (O.addClass canBeNullable this).
Local Abbreviation build := (O.buildStoredProcResultSetClasses canBeNullable this).

(** *** Both members are functions *)

Lemma forEach_addProperty_resolved
      (g : SqlResultSetColumn -> string) (cols : list SqlResultSetColumn)
      (properties : list PropertyDefinition) :
  O.member_getResultSetColumnPropertyName this = Some g ->
  O.forEach cols addProperty properties
  = Returned (Js.forEach cols (B.addProperty g canBeNullable) properties).
Proof.
  intros Hg. revert properties.
  induction cols as [|col cols IH]; intros properties; [reflexivity|].
  cbn [O.forEach Js.forEach fold_left].
  unfold O.addProperty at 1, O.call. rewrite Hg. cbn [O.bind].
  apply IH.
Qed.

Lemma addClass_resolved
      (f : SqlStoredProcedure -> string) (g : SqlResultSetColumn -> string)
      (classDefinitions : list ClassDefinition) (sp : SqlStoredProcedure) :
  O.member_getResultSetClassName this = Some f ->
  O.member_getResultSetColumnPropertyName this = Some g ->
  addClass classDefinitions sp
  = Returned (B.addClass f g canBeNullable classDefinitions sp).
Proof.
  intros Hf Hg. unfold O.addClass, B.addClass, O.call.
  destruct (resultSets sp) as [[|first rest]|]; try reflexivity.
  rewrite Hf. cbn [O.bind].
  now rewrite (forEach_addProperty_resolved g _ _ Hg).
Qed.

Lemma forEach_addClass_resolved
      (f : SqlStoredProcedure -> string) (g : SqlResultSetColumn -> string)
      (sps : list SqlStoredProcedure) (classDefinitions : list ClassDefinition) :
  O.member_getResultSetClassName this = Some f ->
  O.member_getResultSetColumnPropertyName this = Some g ->
  O.forEach sps addClass classDefinitions
  = Returned (Js.forEach sps (B.addClass f g canBeNullable) classDefinitions).
Proof.
  intros Hf Hg. revert classDefinitions.
  induction sps as [|sp sps IH]; intros classDefinitions; [reflexivity|].
  cbn [O.forEach Js.forEach fold_left].
  rewrite (addClass_resolved f g _ _ Hf Hg). cbn [O.bind]. apply IH.
Qed.

(** *** What a returning call has done *)

Lemma addClass_returned (classDefinitions result : list ClassDefinition)
      (sp : SqlStoredProcedure) :
  addClass classDefinitions sp = Returned result ->
  exists added : list ClassDefinition,
    result = classDefinitions ++ added
    /\ List.length added = (if hasResultSets sp then 1 else 0).
Proof.
  unfold O.addClass, hasResultSets.
  destruct (resultSets sp) as [[|first rest]|].
  - intros [= <-]. exists []. now rewrite app_nil_r.
  - destruct (O.call _ _ sp) as [name|e]; [|discriminate].
    cbn [O.bind].
    destruct (O.forEach (columns first) addProperty []) as [properties|e];
      [|discriminate].
    cbn [O.bind]. intros [= <-]. unfold Js.push. eexists. split; reflexivity.
  - intros [= <-]. exists []. now rewrite app_nil_r.
Qed.

Lemma forEach_addClass_returned (sps : list SqlStoredProcedure)
      (classDefinitions result : list ClassDefinition) :
  O.forEach sps addClass classDefinitions = Returned result ->
  exists added : list ClassDefinition,
    result = classDefinitions ++ added
    /\ List.length added = List.length (filter hasResultSets sps).
Proof.
  revert classDefinitions.
  induction sps as [|sp sps IH]; intros classDefinitions; cbn [O.forEach].
  - intros [= <-]. exists []. now rewrite app_nil_r.
  - destruct (addClass classDefinitions sp) as [next|e] eqn:E; [|discriminate].
    cbn [O.bind]. intros H.
    destruct (addClass_returned _ _ _ E) as (one & -> & Hone).
    destruct (IH _ H) as (more & -> & Hmore).
    exists (one ++ more). rewrite app_assoc. split; [reflexivity|].
    rewrite length_app, Hone, Hmore. cbn [filter].
    destruct (hasResultSets sp); reflexivity.
Qed.

(** A procedure whose first result set has no column needs the first
    member only. *)
Lemma addClass_no_columns (f : SqlStoredProcedure -> string)
      (classDefinitions : list ClassDefinition) (sp : SqlStoredProcedure)
      (first : SqlResultSet) (rest : list SqlResultSet) :
  O.member_getResultSetClassName this = Some f ->
  resultSets sp = Some (first :: rest) ->
  columns first = [] ->
  addClass classDefinitions sp
  = Returned (classDefinitions ++ [mkClass (f sp) "public" []]).
Proof.
  intros Hf Hrs Hcols. unfold O.addClass, O.call.
  now rewrite Hrs, Hf, Hcols.
Qed.

(** *** The first member is missing *)

Lemma addClass_unresolved (classDefinitions : list ClassDefinition)
      (sp : SqlStoredProcedure) :
  O.member_getResultSetClassName this = None ->
  addClass classDefinitions sp
  = if hasResultSets sp
    then Threw (TypeError_not_a_function "getResultSetClassName")
    else Returned classDefinitions.
Proof.
  intros Hf. unfold O.addClass, O.call, hasResultSets.
  destruct (resultSets sp) as [[|first rest]|]; try reflexivity.
  now rewrite Hf.
Qed.

Lemma forEach_addClass_unresolved (sps : list SqlStoredProcedure)
      (classDefinitions : list ClassDefinition) :
  O.member_getResultSetClassName this = None ->
  O.forEach sps addClass classDefinitions
  = if existsb hasResultSets sps
    then Threw (TypeError_not_a_function "getResultSetClassName")
    else Returned classDefinitions.
Proof.
  intros Hf. revert classDefinitions.
  induction sps as [|sp sps IH]; intros classDefinitions; [reflexivity|].
  cbn [O.forEach existsb]. rewrite (addClass_unresolved _ _ Hf).
  destruct (hasResultSets sp); [reflexivity|]. cbn [O.bind orb]. apply IH.
Qed.

(** *** Properties of a call *)


(** X15: whenever the builder returns, every procedure of the input has
    either yielded exactly one class or been skipped: the number of
    classes and the number of procedures without a result set add up to
    the length of the input.  It returns whenever the provider object has
    both members. *)
Theorem returned_classes_count (sps : list SqlStoredProcedure) :
  (forall classes : list ClassDefinition,
      build sps = Returned classes ->
      List.length classes
      + List.length (filter (fun sp => negb (hasResultSets sp)) sps)
      = List.length sps)
  /\ (forall f g,
        O.member_getResultSetClassName this = Some f ->
        O.member_getResultSetColumnPropertyName this = Some g ->
        exists classes : list ClassDefinition, build sps = Returned classes).
Proof.
  split.
  - intros classes H. unfold O.buildStoredProcResultSetClasses in H.
    destruct (forEach_addClass_returned _ _ _ H) as (added & -> & Hlen).
    cbn [app]. rewrite Hlen. clear.
    induction sps as [|sp sps IH]; simpl; [reflexivity|].
    destruct (hasResultSets sp); simpl; lia.
  - intros f g Hf Hg. eexists.
    unfold O.buildStoredProcResultSetClasses.
    apply (forEach_addClass_resolved f g sps [] Hf Hg).
Qed.

Lemma forEach_addClass_no_columns
      (f : SqlStoredProcedure -> string) (sps : list SqlStoredProcedure)
      (classDefinitions classes : list ClassDefinition)
      (sp : SqlStoredProcedure) (first : SqlResultSet) (rest : list SqlResultSet) :
  O.member_getResultSetClassName this = Some f ->
  O.forEach sps addClass classDefinitions = Returned classes ->
  In sp sps ->
  resultSets sp = Some (first :: rest) ->
  columns first = [] ->
  In (mkClass (f sp) "public" []) classes.
Proof.
  intros Hf H Hin Hrs Hcols. revert classDefinitions H.
  induction sps as [|x sps IH]; intros classDefinitions H; [contradiction|].
  cbn [O.forEach] in H. destruct Hin as [->|Hin].
  - rewrite (addClass_no_columns f _ _ _ _ Hf Hrs Hcols) in H. cbn [O.bind] in H.
    destruct (forEach_addClass_returned _ _ _ H) as (added & -> & _).
    apply in_or_app. left. apply in_or_app. right. now left.
  - destruct (addClass classDefinitions x) as [next|e]; [|discriminate].
    cbn [O.bind] in H. exact (IH Hin next H).
Qed.

(** X16: when the provider object has the member [getResultSetClassName]
    and the builder returns, a procedure of the input whose first result
    set has no column is not skipped: the output contains a public class
    with its name and no property, also when a later result set has
    columns, and also when the object lacks
    [getResultSetColumnPropertyName]. *)
Theorem returned_keeps_empty_first_result_set
        (f : SqlStoredProcedure -> string) (sps : list SqlStoredProcedure)
        (classes : list ClassDefinition)
        (sp : SqlStoredProcedure) (first : SqlResultSet) (rest : list SqlResultSet) :
  O.member_getResultSetClassName this = Some f ->
  build sps = Returned classes ->
  In sp sps ->
  resultSets sp = Some (first :: rest) ->
  columns first = [] ->
  In {| class_name := f sp;
        class_accessModifier := "public";
        class_properties := [] |}
     classes.
Proof.
  intros Hf H. apply (forEach_addClass_no_columns f sps [] classes); assumption.
Qed.

End AnyObject.


Lemma returned_classes_count_witness :
  O.buildStoredProcResultSetClasses canBeNullable (O.extendedProvider true)
    [dbo_Touch; sales_GetOrders; dbo_Purge; dbo_Count]
  = Returned
      [ mkClass "sales_GetOrdersResult" "public"
          [ mkProperty "Id" "int" "public" (Some true);
            mkProperty "OrderTitle" "string" "public" (Some false);
            mkProperty "Column3" "decimal" "public" (Some false) ];
        mkClass "CountResult" "public"
          [ mkProperty "Column3" "decimal" "public" (Some false) ] ]
  /\ 2 + List.length
            (filter (fun sp => negb (hasResultSets sp))
                    [dbo_Touch; sales_GetOrders; dbo_Purge; dbo_Count])
     = List.length [dbo_Touch; sales_GetOrders; dbo_Purge; dbo_Count].
Proof.
  split; [reflexivity|].
  apply (proj1 (returned_classes_count canBeNullable (O.extendedProvider true)
                  [dbo_Touch; sales_GetOrders; dbo_Purge; dbo_Count])
               [ mkClass "sales_GetOrdersResult" "public"
                   [ mkProperty "Id" "int" "public" (Some true);
                     mkProperty "OrderTitle" "string" "public" (Some false);
                     mkProperty "Column3" "decimal" "public" (Some false) ];
                 mkClass "CountResult" "public"
                   [ mkProperty "Column3" "decimal" "public" (Some false) ] ]).
  reflexivity.
Defined.

Lemma returned_keeps_empty_first_result_set_witness :
  O.member_getResultSetClassName O.classNameOnlyProvider
  = Some (fun sp => (sp_name sp ++ "Row")%string)
  /\ O.buildStoredProcResultSetClasses canBeNullable O.classNameOnlyProvider
       [dbo_Purge; dbo_Empty]
     = Returned [ mkClass "EmptyRow" "public" [] ]
  /\ In dbo_Empty [dbo_Purge; dbo_Empty]
  /\ resultSets dbo_Empty
     = Some [ {| columns := [] |}; {| columns := [col_extra] |} ]
  /\ In {| class_name := "EmptyRow";
           class_accessModifier := "public";
           class_properties := [] |}
        [ mkClass "EmptyRow" "public" [] ].
Proof.
  split; [reflexivity|]. split; [reflexivity|].
  split; [right; left; reflexivity|]. split; [reflexivity|].
  apply (returned_keeps_empty_first_result_set
           canBeNullable O.classNameOnlyProvider
           (fun sp => (sp_name sp ++ "Row")%string)
           [dbo_Purge; dbo_Empty] [ mkClass "EmptyRow" "public" [] ]
           dbo_Empty {| columns := [] |} [ {| columns := [col_extra] |} ]).
  - reflexivity.
  - reflexivity.
  - right. left. reflexivity.
  - reflexivity.
  - reflexivity.
Defined.

(** *** The builder as its constructor makes it *)

(** C4: the builder a caller gets from the constructor without a
    provider of its own holds a [DefaultReverseSqlObjectNameProvider],
    which has no member [getResultSetClassName]: for the one procedure
    [sales.GetOrders] with a result set, and for every input with at
    least one procedure that has a non-empty result-set list, the call
    raises a [TypeError] and returns no class; only an input without any
    such procedure gives the empty list. *)
Theorem default_builder_raises_on_result_sets
        (capitalize upperToLowerCamelCase : string -> string)
        (isReservedKeyword : string -> bool) (canBeNullable : string -> bool)
        (includeSchema : option bool) (sps : list SqlStoredProcedure) :
  let build options :=
    O.buildStoredProcResultSetClasses canBeNullable
      (O.constructor capitalize upperToLowerCamelCase isReservedKeyword options) in
  let outcome :=
    if existsb hasResultSets sps
    then Threw (TypeError_not_a_function "getResultSetClassName")
    else Returned [] in
  build None [sales_GetOrders]
  = Threw (TypeError_not_a_function "getResultSetClassName")
  /\ build None sps = outcome
  /\ build (Some (O.mkOptions None includeSchema)) sps = outcome.
Proof.
  intros build outcome. subst build outcome. split; [reflexivity|].
  unfold O.buildStoredProcResultSetClasses.
  split; apply forEach_addClass_unresolved; reflexivity.
Qed.

(** With a provider object that has the two members, passed in the
    options, the same input gives its classes. *)
Example extended_builder_sample :
  O.buildStoredProcResultSetClasses canBeNullable
    (O.constructor capitalize upperToLowerCamelCase isReservedKeyword
       (Some (O.mkOptions (Some (O.extendedProvider true)) None)))
    [dbo_Touch; sales_GetOrders; dbo_Purge; dbo_Count]
  = Returned
      [ mkClass "sales_GetOrdersResult" "public"
          [ mkProperty "Id" "int" "public" (Some true);
            mkProperty "OrderTitle" "string" "public" (Some false);
            mkProperty "Column3" "decimal" "public" (Some false) ];
        mkClass "CountResult" "public"
          [ mkProperty "Column3" "decimal" "public" (Some false) ] ].
Proof. reflexivity. Qed.

(** A provider object with [getResultSetClassName] only fails at the
    first column it has to name. *)
Example class_name_only_sample :
  O.buildStoredProcResultSetClasses canBeNullable O.classNameOnlyProvider
    [dbo_Empty; dbo_Count]
  = Threw (TypeError_not_a_function "getResultSetColumnPropertyName").
Proof. reflexivity. Qed.

(** The declared methods of the object the constructor stores are those
    of the provider selected from the same options. *)
Lemma constructor_declared
      (capitalize upperToLowerCamelCase : string -> string)
      (isReservedKeyword : string -> bool) (includeSchema : option bool) :
  O.declared
    (O.constructor capitalize upperToLowerCamelCase isReservedKeyword
       (Some (O.mkOptions None includeSchema)))
  = B.constructor capitalize upperToLowerCamelCase isReservedKeyword
      (Some (B.mkOptions None includeSchema)).
Proof. reflexivity. Qed.

End BuilderObjectFacts.
